(** * Blogicum: the view layer of the blog application

    A shallow embedding of [blogicum/blog/mixins.py] and
    [blogicum/blog/views.py].  The views are Django class-based views:
    what each class leaves to its generic bases ([View], [LoginRequiredMixin],
    [DeleteView], [UpdateView], [CreateView], [ListView], [DetailView],
    [Paginator], [get_object_or_404], [redirect], [reverse]) is written out
    in the section "The framework" below, after the behaviour of the Django
    release line in which [DeletionMixin.post] calls [self.delete], the hook
    both delete views override.

    A request handler is a computation over the entity store that either
    returns a value or raises an exception. *)

From Stdlib Require Import List String ZArith Lia Bool Arith PeanoNat.
Import ListNotations.
Local Open Scope string_scope.
Local Open Scope nat_scope.

(* ===================================================================== *)
(** * The data model *)
(* ===================================================================== *)

(** Modelled from the spec: [models.py] is absent from the sources.  The
    tables and columns are those of the spec's data model (section 3); a
    reference is the primary key of the row referred to.  The reverse
    accessors the views use ([user.posts], [post.comments]) follow the
    references backwards. *)
Module User.
Record t := { pk : nat; username : string }.
End User.

Module Category.
Record t := { pk : nat; slug : string; is_published : bool }.
End Category.

Module Post.
Record t := {
  pk : nat;
  author : nat;
  category : nat;
  location : option nat;
  is_published : bool;
  pub_date : Z;
  text : string
}.
End Post.

Module Comment.
Record t := {
  pk : nat;
  post : nat;
  author : nat;
  text : string;
  created_at : Z
}.
End Comment.

(** The entity store: one list of rows per table, in the tables' default
    order. *)
Record Store := {
  users : list User.t;
  categories : list Category.t;
  posts : list Post.t;
  comments : list Comment.t
}.

(** Modelled from the spec: [forms.py] is absent from the sources.  A form
    carries the columns of its model that the views do not assign
    themselves ([author] for a post; [post] and [author] for a comment). *)
Record CreatePostForm := {
  form_category : nat;
  form_location : option nat;
  form_is_published : bool;
  form_pub_date : Z;
  form_text : string
}.

Record CreateCommentForm := { form_comment_text : string }.

(** A form bound to the submitted data: [Valid] holds the cleaned data of a
    form for which [is_valid()] answers true. *)
Inductive BoundForm (F : Type) :=
| Valid (cleaned_data : F)
| Invalid.
Arguments Valid {F} cleaned_data.
Arguments Invalid {F}.

(* ===================================================================== *)
(** * Requests and responses *)
(* ===================================================================== *)

(** [View.http_method_names]. *)
Inductive Method := GET | POST | PUT | PATCH | DELETE | HEAD | OPTIONS | TRACE.

(** [request.user]: a row of the user table, or Django's [AnonymousUser]. *)
Inductive RequestUser :=
| AnonymousUser
| Authenticated (u : User.t).

(** The [page] query parameter as [paginate_queryset] reads it. *)
Inductive PageArg :=
| NoPage                 (* absent or empty: "or 1" *)
| PageInt (n : Z)        (* int(page) succeeds *)
| PageLast               (* the word "last" *)
| PageOther.             (* anything else: ValueError *)

Record Request := {
  method : Method;
  user : RequestUser;
  path : string;
  page : PageArg
}.

Inductive Arg := IntArg (n : nat) | StrArg (s : string).

Inductive URL :=
| Reversed (viewname : string) (kwargs : list (string * Arg))
| LoginURL (next : string).

Inductive Exception :=
| Http404
| NoReverseMatch
| MultipleObjectsReturned
| AttributeError
| ValueError.

(** A post as a list view hands it to the template: the row and, when the
    queryset was annotated, its [comment_count] attribute. *)
Record PostItem := {
  item : Post.t;
  comment_count : option nat
}.

Inductive Object :=
| PostObject (p : Post.t)
| CommentObject (c : Comment.t).

Inductive Context :=
| ObjectContext (object : Object)
| FormContext (object : option Object) (is_bound : bool)
| DetailContext (object : Post.t) (comments : list Comment.t)
| ListContext (object_list : list PostItem)
| ProfileContext (object_list : list PostItem) (profile : User.t)
| CategoryContext (object_list : list PostItem) (category : Category.t).

Inductive Response :=
| TemplateResponse (template_name : string) (context : Context)
| HttpResponseRedirect (url : URL)
| HttpResponseAllow
| HttpResponseNotAllowed
| HttpResponseNotFound
| HttpResponseServerError (e : Exception).

(* ===================================================================== *)
(** * Computations over the store *)
(* ===================================================================== *)

Inductive Outcome (A : Type) :=
| Return (a : A)
| Raise (e : Exception).
Arguments Return {A} a.
Arguments Raise {A} e.

Definition M (A : Type) : Type := Store -> Outcome A * Store.

Definition ret {A} (a : A) : M A := fun s => (Return a, s).

Definition raise {A} (e : Exception) : M A := fun s => (Raise e, s).

Definition bind {A B} (m : M A) (k : A -> M B) : M B :=
  fun s =>
    match m s with
    | (Return a, s') => k a s'
    | (Raise e, s') => (Raise e, s')
    end.

Definition query {A} (table : Store -> A) : M A := fun s => (Return (table s), s).

Definition modify (f : Store -> Store) : M unit := fun s => (Return tt, f s).

Declare Scope view_scope.
Delimit Scope view_scope with view.
Notation "x <- m ;; k" := (bind m (fun x => k))
  (at level 100, m at next level, right associativity) : view_scope.
Notation "m ;;; k" := (bind m (fun _ => k))
  (at level 100, right associativity) : view_scope.
Local Open Scope view_scope.

(** What the request handler makes of a view's outcome: [Http404] becomes
    the not-found response, any other uncaught exception a server error.
    Changes made to the store before the exception stay. *)
Definition respond (view : M Response) (s : Store) : Response * Store :=
  match view s with
  | (Return r, s') => (r, s')
  | (Raise Http404, s') => (HttpResponseNotFound, s')
  | (Raise e, s') => (HttpResponseServerError e, s')
  end.

(* ===================================================================== *)
(** * The framework *)
(* ===================================================================== *)

(** ** The object-relational layer *)

(** [get_object_or_404(klass, **conditions)]: [QuerySet.get] on the rows that
    meet the conditions; no row is [DoesNotExist], turned into [Http404];
    more than one is [MultipleObjectsReturned]. *)
Definition get_object_or_404 {A} (table : Store -> list A) (cond : A -> bool)
  : M A :=
  rows <- query table ;;
  match filter cond rows with
  | [] => raise Http404
  | [x] => ret x
  | _ :: _ :: _ => raise MultipleObjectsReturned
  end.

(** The key a new row gets: one not in use. *)
Definition next_pk (pks : list nat) : nat := S (fold_right Nat.max 0 pks).

(** [form.save()] of a [CreatePostForm] without instance, after the view
    set [form.instance.author]. *)
Definition save_new_post (author : nat) (f : CreatePostForm) : M Post.t :=
  rows <- query posts ;;
  let p := {| Post.pk := next_pk (map Post.pk rows);
              Post.author := author;
              Post.category := form_category f;
              Post.location := form_location f;
              Post.is_published := form_is_published f;
              Post.pub_date := form_pub_date f;
              Post.text := form_text f |} in
  modify (fun s => {| users := users s; categories := categories s;
                      posts := posts s ++ [p]; comments := comments s |}) ;;;
  ret p.

(** [form.save()] of a [CreatePostForm] whose instance is the row [old]. *)
Definition save_post (old : Post.t) (f : CreatePostForm) : M Post.t :=
  let p := {| Post.pk := Post.pk old;
              Post.author := Post.author old;
              Post.category := form_category f;
              Post.location := form_location f;
              Post.is_published := form_is_published f;
              Post.pub_date := form_pub_date f;
              Post.text := form_text f |} in
  modify (fun s => {| users := users s; categories := categories s;
                      posts := map (fun q => if Post.pk q =? Post.pk old
                                             then p else q) (posts s);
                      comments := comments s |}) ;;;
  ret p.

(** [form.save()] of a [CreateCommentForm] without instance, after the view
    set [form.instance.post] and [form.instance.author]; the creation
    timestamp is the time of the request. *)
Definition save_new_comment (now : Z) (post author : nat)
  (f : CreateCommentForm) : M Comment.t :=
  rows <- query comments ;;
  let c := {| Comment.pk := next_pk (map Comment.pk rows);
              Comment.post := post;
              Comment.author := author;
              Comment.text := form_comment_text f;
              Comment.created_at := now |} in
  modify (fun s => {| users := users s; categories := categories s;
                      posts := posts s; comments := comments s ++ [c] |}) ;;;
  ret c.

(** [form.save()] of a [CreateCommentForm] whose instance is the row [old]. *)
Definition save_comment (old : Comment.t) (f : CreateCommentForm)
  : M Comment.t :=
  let c := {| Comment.pk := Comment.pk old;
              Comment.post := Comment.post old;
              Comment.author := Comment.author old;
              Comment.text := form_comment_text f;
              Comment.created_at := Comment.created_at old |} in
  modify (fun s => {| users := users s; categories := categories s;
                      posts := posts s;
                      comments := map (fun q => if Comment.pk q =? Comment.pk old
                                                then c else q) (comments s) |}) ;;;
  ret c.

(** [post.delete()]: the row goes, and with it the comments that refer
    to it. *)
Definition delete_post (p : Post.t) : M unit :=
  modify (fun s => {| users := users s; categories := categories s;
                      posts := filter (fun q => negb (Post.pk q =? Post.pk p))
                                      (posts s);
                      comments := filter (fun c => negb (Comment.post c =? Post.pk p))
                                         (comments s) |}).

(** [comment.delete()]. *)
Definition delete_comment (c : Comment.t) : M unit :=
  modify (fun s => {| users := users s; categories := categories s;
                      posts := posts s;
                      comments := filter (fun q => negb (Comment.pk q =? Comment.pk c))
                                         (comments s) |}).

(** [queryset.annotate(comment_count=Count('comments'))]: each row with the
    number of comments that refer to it. *)
Definition annotate_comment_count (cs : list Comment.t) (queryset : list Post.t)
  : list PostItem :=
  map (fun p => {| item := p;
                   comment_count :=
                     Some (List.length (filter (fun c => Comment.post c =? Post.pk p) cs)) |})
      queryset.

(** A queryset that was not annotated: its rows bear no [comment_count]. *)
Definition plain (queryset : list Post.t) : list PostItem :=
  map (fun p => {| item := p; comment_count := None |}) queryset.

(** Lookups that span a reference: [category__is_published=True],
    [category__slug=...], [author__username=...]. *)
Definition category__is_published (cats : list Category.t) (p : Post.t) : bool :=
  existsb (fun c => (Category.pk c =? Post.category p) && Category.is_published c)
          cats.

Definition category__slug (cats : list Category.t) (sl : string) (p : Post.t)
  : bool :=
  existsb (fun c => (Category.pk c =? Post.category p)
                    && String.eqb (Category.slug c) sl) cats.

Definition author__username (us : list User.t) (name : string) (p : Post.t)
  : bool :=
  existsb (fun u => (User.pk u =? Post.author p)
                    && String.eqb (User.username u) name) us.

(** ** Users *)

Definition is_authenticated (u : RequestUser) : bool :=
  match u with
  | Authenticated _ => true
  | AnonymousUser => false
  end.

(** [request.user == entity.author]: model instances are equal when their
    primary keys are; [AnonymousUser] equals no row. *)
Definition user_eq (u : RequestUser) (author : nat) : bool :=
  match u with
  | Authenticated r => User.pk r =? author
  | AnonymousUser => false
  end.

(** [request.user.username]: empty for [AnonymousUser]. *)
Definition request_username (u : RequestUser) : string :=
  match u with
  | Authenticated r => User.username r
  | AnonymousUser => ""
  end.

(** ** URLs *)

(** Modelled from the spec: the URL configuration ([urls.py]) is absent from
    the sources.  The routes are those of the spec's section 6 that the
    views reverse by name; each captured parameter bears the name under
    which the route's own view reads it from [self.kwargs]
    ([PostDetailView.pk_url_kwarg] is ['post_id'], [AuthorProfileListView]
    reads ['username']). *)
Definition urlpatterns : list (string * list string) :=
  [ ("blog:index", []);
    ("blog:post_detail", ["post_id"]);
    ("blog:profile", ["username"]) ].

Fixpoint route_params (name : string) (routes : list (string * list string))
  : option (list string) :=
  match routes with
  | [] => None
  | (n, ps) :: rest => if String.eqb n name then Some ps else route_params name rest
  end.

Definition same_names (ks ps : list string) : bool :=
  forallb (fun k => existsb (String.eqb k) ps) ks
  && forallb (fun p => existsb (String.eqb p) ks) ps.

(** [reverse(viewname, kwargs=...)]: the route of that name whose parameters
    are exactly the keywords given; [NoReverseMatch] when there is none. *)
Definition reverse (viewname : string) (kwargs : list (string * Arg)) : M URL :=
  match route_params viewname urlpatterns with
  | Some ps =>
      if same_names (map fst kwargs) ps
      then ret (Reversed viewname kwargs)
      else raise NoReverseMatch
  | None => raise NoReverseMatch
  end.

(** [redirect(to, **kwargs)] with a view name: the name is reversed on the
    spot. *)
Definition redirect (to : string) (kwargs : list (string * Arg)) : M Response :=
  url <- reverse to kwargs ;;
  ret (HttpResponseRedirect url).

(** ** Generic views *)

(** [View.dispatch]: the handler named after the request's method, or
    [http_method_not_allowed]. *)
Definition View_dispatch (handler : Method -> option (M Response))
  (request : Request) : M Response :=
  match handler (method request) with
  | Some h => h
  | None => ret HttpResponseNotAllowed
  end.

(** [LoginRequiredMixin.dispatch]; [handle_no_permission] for a user who is
    not authenticated is [redirect_to_login] with the path of the request. *)
Definition LoginRequiredMixin_dispatch (request : Request)
  (super_dispatch : M Response) : M Response :=
  if negb (is_authenticated (user request))
  then ret (HttpResponseRedirect (LoginURL (path request)))
  else super_dispatch.

(** [SingleObjectMixin.get_object]: the row of the view's queryset whose
    primary key is the URL keyword [pk_url_kwarg]. *)
Definition SingleObjectMixin_get_object {A} (queryset : Store -> list A)
  (pk : A -> nat) (pk_url_kwarg : nat) : M A :=
  get_object_or_404 queryset (fun o => pk o =? pk_url_kwarg).

(** [BaseDetailView.get], the GET handler of a [DeleteView]: the
    confirmation page for the object. *)
Definition BaseDetailView_get {A} (get_object : M A) (template_name : string)
  (wrap : A -> Object) : M Response :=
  object <- get_object ;;
  ret (TemplateResponse template_name (ObjectContext (wrap object))).

(** [DeletionMixin.delete]. *)
Definition DeletionMixin_delete {A} (get_object : M A) (get_success_url : M URL)
  (delete : A -> M unit) : M Response :=
  object <- get_object ;;
  success_url <- get_success_url ;;
  delete object ;;;
  ret (HttpResponseRedirect success_url).

(** The handlers of a [DeleteView]: [DeletionMixin.post] calls
    [self.delete]; [head] is [get]. *)
Definition DeleteView_handlers (get delete : M Response) (m : Method)
  : option (M Response) :=
  match m with
  | GET | HEAD => Some get
  | POST | DELETE => Some delete
  | OPTIONS => Some (ret HttpResponseAllow)
  | PUT | PATCH | TRACE => None
  end.

(** [ProcessFormView.get] and [form_invalid]: the form page. *)
Definition render_form (template_name : string) (object : option Object)
  (is_bound : bool) : M Response :=
  ret (TemplateResponse template_name (FormContext object is_bound)).

(** [ProcessFormView.post]. *)
Definition ProcessFormView_post {F} (form : BoundForm F)
  (form_valid : F -> M Response) (form_invalid : M Response) : M Response :=
  match form with
  | Valid cleaned_data => form_valid cleaned_data
  | Invalid => form_invalid
  end.

(** [ModelFormMixin.form_valid]: save, then redirect to the success URL. *)
Definition ModelFormMixin_form_valid {A} (save : M A) (get_success_url : M URL)
  : M Response :=
  _ <- save ;;
  url <- get_success_url ;;
  ret (HttpResponseRedirect url).

(** [BaseUpdateView.get] and [BaseUpdateView.post]: both load the object
    first. *)
Definition BaseUpdateView_get {A} (get_object : M A) (template_name : string)
  (wrap : A -> Object) : M Response :=
  object <- get_object ;;
  render_form template_name (Some (wrap object)) false.

Definition BaseUpdateView_post {A F} (get_object : M A) (form : BoundForm F)
  (save : A -> F -> M A) (get_success_url : M URL) (template_name : string)
  (wrap : A -> Object) : M Response :=
  object <- get_object ;;
  ProcessFormView_post form
    (fun cleaned_data =>
       ModelFormMixin_form_valid (save object cleaned_data) get_success_url)
    (render_form template_name (Some (wrap object)) true).

(** The handlers of an [UpdateView] or [CreateView]: [put] is [post]. *)
Definition FormView_handlers (get post : M Response) (m : Method)
  : option (M Response) :=
  match m with
  | GET | HEAD => Some get
  | POST | PUT => Some post
  | OPTIONS => Some (ret HttpResponseAllow)
  | PATCH | DELETE | TRACE => None
  end.

(** The handlers of a [ListView] or [DetailView]. *)
Definition ReadView_handlers (get : M Response) (m : Method)
  : option (M Response) :=
  match m with
  | GET | HEAD => Some get
  | OPTIONS => Some (ret HttpResponseAllow)
  | POST | PUT | PATCH | DELETE | TRACE => None
  end.

(** ** Pagination *)

(** [Paginator.num_pages] with no orphans and an empty first page allowed. *)
Definition Paginator_num_pages (count per_page : nat) : nat :=
  let hits := Nat.max 1 count in
  (hits + per_page - 1) / per_page.

(** [Paginator.page]: [validate_number], then the slice
    [object_list[bottom:top]].  [EmptyPage] is raised as the [Http404]
    that [paginate_queryset] turns it into. *)
Definition Paginator_page {A} (object_list : list A) (per_page : nat)
  (number : Z) : M (list A) :=
  let count := List.length object_list in
  if (number <? 1)%Z then raise Http404
  else if (Z.of_nat (Paginator_num_pages count per_page) <? number)%Z
          && negb (number =? 1)%Z
  then raise Http404
  else
    let bottom := (Z.to_nat number - 1) * per_page in
    let top := if count <=? bottom + per_page then count else bottom + per_page in
    ret (firstn (top - bottom) (skipn bottom object_list)).

(** [MultipleObjectMixin.paginate_queryset]: the page's object list. *)
Definition paginate_queryset {A} (queryset : list A) (page_size : nat)
  (page : PageArg) : M (list A) :=
  match page with
  | NoPage => Paginator_page queryset page_size 1
  | PageInt n => Paginator_page queryset page_size n
  | PageLast =>
      Paginator_page queryset page_size
        (Z.of_nat (Paginator_num_pages (List.length queryset) page_size))
  | PageOther => raise Http404
  end.

(** [MultipleObjectMixin.get_context_data] of a view with [paginate_by]. *)
Definition MultipleObjectMixin_get_context_data {A} (paginate_by : nat)
  (request : Request) (object_list : list A) : M (list A) :=
  paginate_queryset object_list paginate_by (page request).

(** [BaseListView.get] (empty lists are allowed). *)
Definition BaseListView_get {A} (get_queryset : M (list A))
  (get_context_data : list A -> M Context) (template_name : string)
  : M Response :=
  object_list <- get_queryset ;;
  context <- get_context_data object_list ;;
  ret (TemplateResponse template_name context).

(* ===================================================================== *)
(** * mixins.py *)
(* ===================================================================== *)

Module PostsQuerySetMixin.
(** [Post.objects.filter(is_published=True, pub_date__lte=timezone.now())];
    [now] is the clock's reading. *)
Definition get_queryset (now : Z) : M (list Post.t) :=
  rows <- query posts ;;
  ret (filter (fun p => Post.is_published p && (Post.pub_date p <=? now)%Z) rows).
End PostsQuerySetMixin.

Module PostsEditMixin.
Definition template_name : string := "blog/create.html".
(** [Post.objects.select_related('author', 'location', 'category')]. *)
Definition queryset : Store -> list Post.t := posts.
End PostsEditMixin.

Module CommentEditMixin.
Definition template_name : string := "blog/comment.html".
(** [model = Comment]. *)
Definition queryset : Store -> list Comment.t := comments.
End CommentEditMixin.

(* ===================================================================== *)
(** * views.py *)
(* ===================================================================== *)

Definition PAGINATED_BY : nat := 10.

(** [class PostDeleteView(PostsEditMixin, LoginRequiredMixin, DeleteView)];
    [dispatch] is [LoginRequiredMixin]'s. *)
Module PostDeleteView.
Definition get_object (post_id : nat) : M Post.t :=
  SingleObjectMixin_get_object PostsEditMixin.queryset Post.pk post_id.

(** [success_url = reverse_lazy('blog:index')]. *)
Definition get_success_url : M URL := reverse "blog:index" [].

Definition delete (request : Request) (post_id : nat) : M Response :=
  post <- get_object_or_404 posts (fun p => Post.pk p =? post_id) ;;
  if negb (user_eq (user request) (Post.author post))
  then redirect "blog:index" []
  else DeletionMixin_delete (get_object post_id) get_success_url delete_post.

Definition get (post_id : nat) : M Response :=
  BaseDetailView_get (get_object post_id) PostsEditMixin.template_name PostObject.

Definition dispatch (request : Request) (post_id : nat) : M Response :=
  LoginRequiredMixin_dispatch request
    (View_dispatch (DeleteView_handlers (get post_id) (delete request post_id))
                   request).

Definition as_view (request : Request) (post_id : nat) :=
  respond (dispatch request post_id).
End PostDeleteView.

(** [class PostUpdateView(PostsEditMixin, LoginRequiredMixin, UpdateView)]. *)
Module PostUpdateView.
Definition get_object (post_id : nat) : M Post.t :=
  SingleObjectMixin_get_object PostsEditMixin.queryset Post.pk post_id.

Definition get_success_url (post_id : nat) : M URL :=
  reverse "blog:post_detail" [("post_id", IntArg post_id)].

Definition get (post_id : nat) : M Response :=
  BaseUpdateView_get (get_object post_id) PostsEditMixin.template_name PostObject.

Definition post (form : BoundForm CreatePostForm) (post_id : nat) : M Response :=
  BaseUpdateView_post (get_object post_id) form save_post
    (get_success_url post_id) PostsEditMixin.template_name PostObject.

(** [super().dispatch] is [LoginRequiredMixin.dispatch]. *)
Definition dispatch (request : Request) (form : BoundForm CreatePostForm)
  (post_id : nat) : M Response :=
  post <- get_object_or_404 posts (fun p => Post.pk p =? post_id) ;;
  if negb (user_eq (user request) (Post.author post))
  then redirect "blog:post_detail" [("pk", IntArg post_id)]
  else LoginRequiredMixin_dispatch request
         (View_dispatch (FormView_handlers (get post_id) (PostUpdateView.post form post_id))
                        request).

Definition as_view (request : Request) (form : BoundForm CreatePostForm)
  (post_id : nat) :=
  respond (dispatch request form post_id).
End PostUpdateView.

(** [class PostCreateView(PostsEditMixin, LoginRequiredMixin, CreateView)]. *)
Module PostCreateView.
Definition get_success_url (request : Request) : M URL :=
  reverse "blog:profile"
          [("username", StrArg (request_username (user request)))].

(** [form.instance.author = self.request.user]: only a row of the user
    table can be assigned. *)
Definition form_valid (request : Request) (form : CreatePostForm)
  : M Response :=
  match user request with
  | Authenticated u =>
      ModelFormMixin_form_valid (save_new_post (User.pk u) form)
                                (get_success_url request)
  | AnonymousUser => raise ValueError
  end.

Definition get : M Response :=
  render_form PostsEditMixin.template_name None false.

Definition post (request : Request) (form : BoundForm CreatePostForm)
  : M Response :=
  ProcessFormView_post form (form_valid request)
    (render_form PostsEditMixin.template_name None true).

Definition dispatch (request : Request) (form : BoundForm CreatePostForm)
  : M Response :=
  LoginRequiredMixin_dispatch request
    (View_dispatch (FormView_handlers get (post request form)) request).

Definition as_view (request : Request) (form : BoundForm CreatePostForm) :=
  respond (dispatch request form).
End PostCreateView.

(** [class CommentCreateView(LoginRequiredMixin, CreateView)]; no
    [template_name], so the model's default form template. *)
Module CommentCreateView.
Definition template_name : string := "blog/comment_form.html".

Definition get_success_url (post_id : nat) : M URL :=
  reverse "blog:post_detail" [("post_id", IntArg post_id)].

Definition form_valid (now : Z) (request : Request) (post_id : nat)
  (form : CreateCommentForm) : M Response :=
  post <- get_object_or_404 posts (fun p => Post.pk p =? post_id) ;;
  match user request with
  | Authenticated u =>
      ModelFormMixin_form_valid
        (save_new_comment now (Post.pk post) (User.pk u) form)
        (get_success_url post_id)
  | AnonymousUser => raise ValueError
  end.

Definition get : M Response := render_form template_name None false.

Definition post (now : Z) (request : Request)
  (form : BoundForm CreateCommentForm) (post_id : nat) : M Response :=
  ProcessFormView_post form (form_valid now request post_id)
    (render_form template_name None true).

Definition dispatch (now : Z) (request : Request)
  (form : BoundForm CreateCommentForm) (post_id : nat) : M Response :=
  LoginRequiredMixin_dispatch request
    (View_dispatch (FormView_handlers get (post now request form post_id))
                   request).

Definition as_view (now : Z) (request : Request)
  (form : BoundForm CreateCommentForm) (post_id : nat) :=
  respond (dispatch now request form post_id).
End CommentCreateView.

(** [class CommentDeleteView(CommentEditMixin, LoginRequiredMixin, DeleteView)];
    [dispatch] is [LoginRequiredMixin]'s. *)
Module CommentDeleteView.
Definition get_object (comment_pk : nat) : M Comment.t :=
  SingleObjectMixin_get_object CommentEditMixin.queryset Comment.pk comment_pk.

Definition get_success_url (post_id : nat) : M URL :=
  reverse "blog:post_detail" [("post_id", IntArg post_id)].

Definition delete (request : Request) (post_id comment_pk : nat) : M Response :=
  comment <- get_object_or_404 comments (fun c => Comment.pk c =? comment_pk) ;;
  if negb (user_eq (user request) (Comment.author comment))
  then redirect "blog:post_detail" [("pk", IntArg post_id)]
  else DeletionMixin_delete (get_object comment_pk) (get_success_url post_id)
                            delete_comment.

Definition get (comment_pk : nat) : M Response :=
  BaseDetailView_get (get_object comment_pk) CommentEditMixin.template_name
                     CommentObject.

Definition dispatch (request : Request) (post_id comment_pk : nat)
  : M Response :=
  LoginRequiredMixin_dispatch request
    (View_dispatch (DeleteView_handlers (get comment_pk)
                                        (delete request post_id comment_pk))
                   request).

Definition as_view (request : Request) (post_id comment_pk : nat) :=
  respond (dispatch request post_id comment_pk).
End CommentDeleteView.

(** [class CommentUpdateView(CommentEditMixin, LoginRequiredMixin, UpdateView)]. *)
Module CommentUpdateView.
Definition get_object (comment_pk : nat) : M Comment.t :=
  SingleObjectMixin_get_object CommentEditMixin.queryset Comment.pk comment_pk.

Definition get_success_url (post_id : nat) : M URL :=
  reverse "blog:post_detail" [("post_id", IntArg post_id)].

Definition get (comment_pk : nat) : M Response :=
  BaseUpdateView_get (get_object comment_pk) CommentEditMixin.template_name
                     CommentObject.

Definition post (form : BoundForm CreateCommentForm) (post_id comment_pk : nat)
  : M Response :=
  BaseUpdateView_post (get_object comment_pk) form save_comment
    (get_success_url post_id) CommentEditMixin.template_name CommentObject.

(** [super().dispatch] is [LoginRequiredMixin.dispatch]. *)
Definition dispatch (request : Request) (form : BoundForm CreateCommentForm)
  (post_id comment_pk : nat) : M Response :=
  comment <- get_object_or_404 comments (fun c => Comment.pk c =? comment_pk) ;;
  if negb (user_eq (user request) (Comment.author comment))
  then redirect "blog:post_detail" [("pk", IntArg post_id)]
  else LoginRequiredMixin_dispatch request
         (View_dispatch (FormView_handlers (get comment_pk)
                                           (post form post_id comment_pk))
                        request).

Definition as_view (request : Request) (form : BoundForm CreateCommentForm)
  (post_id comment_pk : nat) :=
  respond (dispatch request form post_id comment_pk).
End CommentUpdateView.

(** [class AuthorProfileListView(PostsQuerySetMixin, ListView)]. *)
Module AuthorProfileListView.
Definition template_name : string := "blog/profile.html".
Definition paginate_by : nat := PAGINATED_BY.

Definition add_comment_count_annotation (queryset : list Post.t)
  : M (list PostItem) :=
  cs <- query comments ;;
  ret (annotate_comment_count cs queryset).

(** [self.request.user.posts] is the reverse accessor of [Post.author];
    [AnonymousUser] has no such attribute. *)
Definition get_queryset (now : Z) (request : Request) (username : string)
  : M (list PostItem) :=
  if String.eqb (request_username (user request)) username
  then
    match user request with
    | Authenticated u =>
        rows <- query posts ;;
        ret (plain (filter (fun p => Post.author p =? User.pk u) rows))
    | AnonymousUser => raise AttributeError
    end
  else
    queryset <- PostsQuerySetMixin.get_queryset now ;;
    us <- query users ;;
    add_comment_count_annotation (filter (author__username us username) queryset).

Definition get_context_data (request : Request) (username : string)
  (object_list : list PostItem) : M Context :=
  context <- MultipleObjectMixin_get_context_data paginate_by request object_list ;;
  profile <- get_object_or_404 users
               (fun u => String.eqb (User.username u) username) ;;
  ret (ProfileContext context profile).

Definition get (now : Z) (request : Request) (username : string) : M Response :=
  BaseListView_get (get_queryset now request username)
                   (get_context_data request username) template_name.

Definition dispatch (now : Z) (request : Request) (username : string)
  : M Response :=
  View_dispatch (ReadView_handlers (get now request username)) request.

Definition as_view (now : Z) (request : Request) (username : string) :=
  respond (dispatch now request username).
End AuthorProfileListView.

(** [class BlogIndexListView(PostsQuerySetMixin, ListView)]. *)
Module BlogIndexListView.
Definition template_name : string := "blog/index.html".
Definition paginate_by : nat := PAGINATED_BY.

Definition add_comment_count_annotation (queryset : list Post.t)
  : M (list PostItem) :=
  cs <- query comments ;;
  ret (annotate_comment_count cs queryset).

Definition get_queryset (now : Z) : M (list PostItem) :=
  queryset <- PostsQuerySetMixin.get_queryset now ;;
  cats <- query categories ;;
  add_comment_count_annotation (filter (category__is_published cats) queryset).

Definition get_context_data (request : Request) (object_list : list PostItem)
  : M Context :=
  context <- MultipleObjectMixin_get_context_data paginate_by request object_list ;;
  ret (ListContext context).

Definition get (now : Z) (request : Request) : M Response :=
  BaseListView_get (get_queryset now) (get_context_data request) template_name.

Definition dispatch (now : Z) (request : Request) : M Response :=
  View_dispatch (ReadView_handlers (get now request)) request.

Definition as_view (now : Z) (request : Request) :=
  respond (dispatch now request).
End BlogIndexListView.

(** [class BlogCategoryListView(PostsQuerySetMixin, ListView)]. *)
Module BlogCategoryListView.
Definition template_name : string := "blog/category.html".
Definition paginate_by : nat := PAGINATED_BY.

Definition add_comment_count_annotation (queryset : list Post.t)
  : M (list PostItem) :=
  cs <- query comments ;;
  ret (annotate_comment_count cs queryset).

Definition get_context_data (request : Request) (category_slug : string)
  (object_list : list PostItem) : M Context :=
  context <- MultipleObjectMixin_get_context_data paginate_by request object_list ;;
  category <- get_object_or_404 categories
                (fun c => String.eqb (Category.slug c) category_slug
                          && Category.is_published c) ;;
  ret (CategoryContext context category).

Definition get_queryset (now : Z) (category_slug : string) : M (list PostItem) :=
  queryset <- PostsQuerySetMixin.get_queryset now ;;
  cats <- query categories ;;
  add_comment_count_annotation (filter (category__slug cats category_slug) queryset).

Definition get (now : Z) (request : Request) (category_slug : string)
  : M Response :=
  BaseListView_get (get_queryset now category_slug)
                   (get_context_data request category_slug) template_name.

Definition dispatch (now : Z) (request : Request) (category_slug : string)
  : M Response :=
  View_dispatch (ReadView_handlers (get now request category_slug)) request.

Definition as_view (now : Z) (request : Request) (category_slug : string) :=
  respond (dispatch now request category_slug).
End BlogCategoryListView.

(** [class PostDetailView(PostsQuerySetMixin, DetailView)]. *)
Module PostDetailView.
Definition template_name : string := "blog/detail.html".

Definition get_object (now : Z) (request : Request) (post_id : nat) : M Post.t :=
  post <- get_object_or_404 posts (fun p => Post.pk p =? post_id) ;;
  if user_eq (user request) (Post.author post)
  then ret post
  else
    cats <- query categories ;;
    get_object_or_404 posts
      (fun p => Post.is_published p
                && category__is_published cats p
                && (Post.pub_date p <? now)%Z
                && (Post.pk p =? post_id)).

(** [context['comments'] = self.get_object().comments...all()]: the object
    is looked up once more. *)
Definition get_context_data (now : Z) (request : Request) (post_id : nat)
  (object : Post.t) : M Context :=
  post <- get_object now request post_id ;;
  cs <- query comments ;;
  ret (DetailContext object
         (filter (fun c => Comment.post c =? Post.pk post) cs)).

(** [BaseDetailView.get]. *)
Definition get (now : Z) (request : Request) (post_id : nat) : M Response :=
  object <- get_object now request post_id ;;
  context <- get_context_data now request post_id object ;;
  ret (TemplateResponse template_name context).

Definition dispatch (now : Z) (request : Request) (post_id : nat) : M Response :=
  View_dispatch (ReadView_handlers (get now request post_id)) request.

Definition as_view (now : Z) (request : Request) (post_id : nat) :=
  respond (dispatch now request post_id).
End PostDetailView.

(* ===================================================================== *)
(** * Reading a response *)
(* ===================================================================== *)

(** The posts a response lists: the page's object list of a list view,
    nothing for any other response. *)
Definition context_object_list (c : Context) : list PostItem :=
  match c with
  | ListContext l => l
  | ProfileContext l _ => l
  | CategoryContext l _ => l
  | ObjectContext _ | FormContext _ _ | DetailContext _ _ => []
  end.

Definition response_items (r : Response) : list PostItem :=
  match r with
  | TemplateResponse _ c => context_object_list c
  | _ => []
  end.

Definition response_posts (r : Response) : list Post.t :=
  map item (response_items r).

(** The querysets of the list views, as [get_queryset] builds them: the
    three public ones and the one of a profile viewed by its owner. *)
Definition index_queryset (now : Z) (s : Store) : list PostItem :=
  annotate_comment_count (comments s)
    (filter (category__is_published (categories s))
       (filter (fun p => Post.is_published p && (Post.pub_date p <=? now)%Z)
               (posts s))).

Definition category_queryset (now : Z) (category_slug : string) (s : Store)
  : list PostItem :=
  annotate_comment_count (comments s)
    (filter (category__slug (categories s) category_slug)
       (filter (fun p => Post.is_published p && (Post.pub_date p <=? now)%Z)
               (posts s))).

Definition profile_queryset (now : Z) (username : string) (s : Store)
  : list PostItem :=
  annotate_comment_count (comments s)
    (filter (author__username (users s) username)
       (filter (fun p => Post.is_published p && (Post.pub_date p <=? now)%Z)
               (posts s))).

Definition own_queryset (u : User.t) (s : Store) : list PostItem :=
  plain (filter (fun p => Post.author p =? User.pk u) (posts s)).

(** A computation keeps a relation between stores when the store it
    leaves is related to the one it found. *)
Definition keeps {A} (R : Store -> Store -> Prop) (m : M A) : Prop :=
  forall s, R s (snd (m s)).

Definition same_users_and_categories (s s' : Store) : Prop :=
  users s' = users s /\ categories s' = categories s.

Definition same_but_comments (s s' : Store) : Prop :=
  users s' = users s /\ categories s' = categories s /\ posts s' = posts s.

Definition same_but_posts (s s' : Store) : Prop :=
  users s' = users s /\ categories s' = categories s /\ comments s' = comments s.

(** The number of comments that refer to a post. *)
Definition count_comments (s : Store) (p : Post.t) : nat :=
  List.length (filter (fun c => Comment.post c =? Post.pk p) (comments s)).

(** The visibility filter of the spec: publish flag set, publish timestamp
    not after [now], category published. *)
Definition publicly_visible (s : Store) (now : Z) (p : Post.t) : bool :=
  Post.is_published p && (Post.pub_date p <=? now)%Z
  && category__is_published (categories s) p.

(* ===================================================================== *)
(** * A small blog *)
(* ===================================================================== *)

(** Two users, a published and an unpublished category, and posts by
    [alice]: an ordinary one, one in the unpublished category, one dated
    after the clock reading 200 used below, one dated exactly 200. *)
Module Blog.
Definition alice : User.t := {| User.pk := 1; User.username := "alice" |}.
Definition bob : User.t := {| User.pk := 2; User.username := "bob" |}.

Definition news : Category.t :=
  {| Category.pk := 1; Category.slug := "news"; Category.is_published := true |}.
Definition drafts : Category.t :=
  {| Category.pk := 2; Category.slug := "drafts"; Category.is_published := false |}.

Definition a_post (pk category : nat) (pub_date : Z) : Post.t :=
  {| Post.pk := pk; Post.author := 1; Post.category := category;
     Post.location := None; Post.is_published := true;
     Post.pub_date := pub_date; Post.text := "text" |}.

Definition ordinary : Post.t := a_post 1 1 100.
Definition in_drafts : Post.t := a_post 2 2 100.
Definition future : Post.t := a_post 3 1 500.
Definition just_now : Post.t := a_post 4 1 200.

Definition a_comment : Comment.t :=
  {| Comment.pk := 1; Comment.post := 1; Comment.author := 2;
     Comment.text := "first"; Comment.created_at := 150 |}.

Definition store : Store :=
  {| users := [alice; bob];
     categories := [news; drafts];
     posts := [ordinary; in_drafts; future; just_now];
     comments := [a_comment] |}.

Definition now : Z := 200.

Definition request (m : Method) (u : RequestUser) : Request :=
  {| method := m; user := u; path := "/here/"; page := NoPage |}.

Definition a_post_form : CreatePostForm :=
  {| form_category := 1; form_location := None; form_is_published := true;
     form_pub_date := 300; form_text := "new" |}.

Definition a_comment_form : CreateCommentForm :=
  {| form_comment_text := "second" |}.
End Blog.

(* ===================================================================== *)
(** * Facts about the framework *)
(* ===================================================================== *)

Ltac unfold_M := unfold bind, ret, raise, query, modify in *.

Section Pagination.
Context {A : Type}.
Variables (object_list : list A) (per_page : nat).

Lemma slice_incl (bottom n : nat) (x : A) :
  In x (firstn n (skipn bottom object_list)) -> In x object_list.
Proof.
  intros H. apply In_nth_error in H. destruct H as [i H].
  rewrite nth_error_firstn in H.
  destruct (i <? n); [|discriminate].
  rewrite nth_error_skipn in H.
  eapply nth_error_In; eassumption.
Qed.

Lemma Paginator_page_store (number : Z) (s : Store) :
  snd (Paginator_page object_list per_page number s) = s.
Proof.
  unfold Paginator_page.
  destruct (number <? 1)%Z; [reflexivity|].
  destruct (_ && _); reflexivity.
Qed.

Lemma Paginator_page_inv (number : Z) (s s' : Store) (pg : list A) :
  Paginator_page object_list per_page number s = (Return pg, s') ->
  exists bottom n, n <= per_page /\ pg = firstn n (skipn bottom object_list).
Proof.
  unfold Paginator_page.
  destruct (number <? 1)%Z; [discriminate|].
  destruct (_ && _); [discriminate|].
  unfold ret. intros H. inversion H; subst; clear H.
  eexists; eexists; split; [|reflexivity].
  destruct (_ <=? _) eqn:E; [apply Nat.leb_le in E|]; lia.
Qed.

Lemma paginate_queryset_inv (pg_arg : PageArg) (s s' : Store) (pg : list A) :
  paginate_queryset object_list per_page pg_arg s = (Return pg, s') ->
  exists bottom n, n <= per_page /\ pg = firstn n (skipn bottom object_list).
Proof.
  destruct pg_arg; simpl; try discriminate; apply Paginator_page_inv.
Qed.

Lemma paginate_queryset_length (pg_arg : PageArg) (s s' : Store) (pg : list A) :
  paginate_queryset object_list per_page pg_arg s = (Return pg, s') ->
  List.length pg <= per_page.
Proof.
  intros H. apply paginate_queryset_inv in H.
  destruct H as (bottom & n & Hn & ->).
  etransitivity; [apply firstn_le_length | exact Hn].
Qed.

Lemma paginate_queryset_incl (pg_arg : PageArg) (s s' : Store) (pg : list A) :
  paginate_queryset object_list per_page pg_arg s = (Return pg, s') ->
  incl pg object_list.
Proof.
  intros H. apply paginate_queryset_inv in H.
  destruct H as (bottom & n & _ & ->).
  intros x. apply slice_incl.
Qed.

Lemma paginate_queryset_store (pg_arg : PageArg) (s : Store) :
  snd (paginate_queryset object_list per_page pg_arg s) = s.
Proof.
  destruct pg_arg; simpl; try reflexivity; apply Paginator_page_store.
Qed.

(** Every row of the queryset is on some page. *)
Lemma Paginator_page_complete (x : A) (s : Store) :
  0 < per_page ->
  In x object_list ->
  exists (number : Z) (pg : list A),
    Paginator_page object_list per_page number s = (Return pg, s) /\ In x pg.
Proof.
  intros Hpos Hin.
  apply In_nth_error in Hin. destruct Hin as [i Hi].
  assert (Hlt : i < List.length object_list)
    by (apply nth_error_Some; congruence).
  set (q := i / per_page).
  assert (Hq1 : q * per_page <= i)
    by (unfold q; rewrite Nat.mul_comm; apply Nat.Div0.mul_div_le).
  assert (Hq2 : i < q * per_page + per_page).
  { unfold q. pose proof (Nat.div_mod_eq i per_page) as E.
    pose proof (Nat.mod_upper_bound i per_page ltac:(lia)). nia. }
  exists (Z.of_nat (S q)). eexists. unfold Paginator_page.
  assert (Hn : (Z.of_nat (S q) <? 1)%Z = false) by (apply Z.ltb_ge; lia).
  rewrite Hn.
  assert (Hp : (Z.of_nat (Paginator_num_pages (List.length object_list) per_page)
                <? Z.of_nat (S q))%Z = false).
  { apply Z.ltb_ge. apply Nat2Z.inj_le. unfold Paginator_num_pages.
    replace (S q) with ((i + per_page) / per_page).
    - apply Nat.Div0.div_le_mono. lia.
    - replace (i + per_page) with (i + 1 * per_page) by lia.
      rewrite Nat.div_add by lia. unfold q. lia. }
  rewrite Hp. simpl andb. cbv iota. unfold ret.
  split; [reflexivity|].
  rewrite Nat2Z.id.
  replace (S q - 1) with q by lia.
  apply (nth_error_In _ (i - q * per_page)).
  rewrite nth_error_firstn, nth_error_skipn.
  replace (q * per_page + (i - q * per_page)) with i by lia.
  destruct (List.length object_list <=? q * per_page + per_page) eqn:E.
  - apply Nat.leb_le in E.
    assert (Hb : (i - q * per_page <? List.length object_list - q * per_page) = true)
      by (apply Nat.ltb_lt; lia).
    rewrite Hb. exact Hi.
  - assert (Hb : (i - q * per_page <? q * per_page + per_page - q * per_page) = true)
      by (apply Nat.ltb_lt; lia).
    rewrite Hb. exact Hi.
Qed.
End Pagination.

Section Lookup.
Context {A : Type}.
Variables (table : Store -> list A) (cond : A -> bool).

Lemma get_object_or_404_store (s : Store) :
  snd (get_object_or_404 table cond s) = s.
Proof.
  unfold get_object_or_404. unfold_M.
  destruct (filter cond (table s)) as [|x [|y l]]; reflexivity.
Qed.

Lemma get_object_or_404_found (s : Store) (x : A) :
  filter cond (table s) = [x] ->
  get_object_or_404 table cond s = (Return x, s).
Proof.
  intros H. unfold get_object_or_404. unfold_M. rewrite H. reflexivity.
Qed.

Lemma get_object_or_404_missing (s : Store) :
  filter cond (table s) = [] ->
  get_object_or_404 table cond s = (Raise Http404, s).
Proof.
  intros H. unfold get_object_or_404. unfold_M. rewrite H. reflexivity.
Qed.

Lemma get_object_or_404_inv (s s' : Store) (x : A) :
  get_object_or_404 table cond s = (Return x, s') ->
  s' = s /\ filter cond (table s) = [x].
Proof.
  unfold get_object_or_404. unfold_M.
  destruct (filter cond (table s)) as [|y [|z l]]; intros H; inversion H; auto.
Qed.

Lemma filter_singleton (l : list A) (x : A) :
  filter cond l = [x] -> In x l /\ cond x = true.
Proof.
  intros H. apply filter_In. rewrite H. left. reflexivity.
Qed.
End Lookup.

(** ** What the list views list *)

Ltac unfold_list_view :=
  unfold BlogIndexListView.as_view, BlogIndexListView.dispatch,
    BlogIndexListView.get, BlogIndexListView.get_queryset,
    BlogIndexListView.get_context_data,
    BlogIndexListView.add_comment_count_annotation,
    BlogCategoryListView.as_view, BlogCategoryListView.dispatch,
    BlogCategoryListView.get, BlogCategoryListView.get_queryset,
    BlogCategoryListView.get_context_data,
    BlogCategoryListView.add_comment_count_annotation,
    AuthorProfileListView.as_view, AuthorProfileListView.dispatch,
    AuthorProfileListView.get, AuthorProfileListView.get_queryset,
    AuthorProfileListView.get_context_data,
    AuthorProfileListView.add_comment_count_annotation,
    respond, View_dispatch, ReadView_handlers, BaseListView_get,
    PostsQuerySetMixin.get_queryset, MultipleObjectMixin_get_context_data.

Ltac step_page :=
  match goal with
  | |- context [paginate_queryset ?l ?n ?p ?s] =>
      let E := fresh "Epage" in
      let H := fresh "Hstore" in
      pose proof (paginate_queryset_store l n p s) as H;
      destruct (paginate_queryset l n p s) as [[?pg | []] ?s'] eqn:E;
      simpl in H; subst; simpl
  end.

Ltac step_lookup :=
  match goal with
  | |- context [get_object_or_404 ?t ?c ?s] =>
      let E := fresh "Elookup" in
      destruct (get_object_or_404 t c s) as [[?found | []] ?s''] eqn:E; simpl
  end.

Lemma BlogIndexListView_lists (now : Z) (request : Request) (s : Store)
  (x : PostItem) :
  In x (response_items (fst (BlogIndexListView.as_view now request s))) ->
  In x (index_queryset now s).
Proof.
  unfold_list_view.
  destruct (method request); simpl; try tauto.
  all: unfold_M; step_page; try tauto.
  all: intros H; eapply paginate_queryset_incl; eassumption.
Qed.

Lemma BlogCategoryListView_lists (now : Z) (request : Request)
  (category_slug : string) (s : Store) (x : PostItem) :
  In x (response_items
          (fst (BlogCategoryListView.as_view now request category_slug s))) ->
  In x (category_queryset now category_slug s)
  /\ exists c, filter (fun c => String.eqb (Category.slug c) category_slug
                               && Category.is_published c) (categories s) = [c].
Proof.
  unfold_list_view.
  destruct (method request); simpl; try tauto.
  all: unfold_M; step_page; try tauto.
  all: step_lookup; try tauto.
  all: intros H; split;
    [ eapply paginate_queryset_incl; eassumption
    | apply get_object_or_404_inv in Elookup; destruct Elookup; eauto ].
Qed.

Lemma AuthorProfileListView_lists (now : Z) (request : Request)
  (username : string) (s : Store) (x : PostItem) :
  In x (response_items
          (fst (AuthorProfileListView.as_view now request username s))) ->
  match user request with
  | Authenticated u =>
      if String.eqb (User.username u) username
      then In x (own_queryset u s)
      else In x (profile_queryset now username s)
  | AnonymousUser => In x (profile_queryset now username s)
  end.
Proof.
  unfold_list_view.
  destruct (method request); simpl; try tauto.
  all: destruct (user request) as [|u]; cbn [request_username];
    destruct (String.eqb _ username).
  all: unfold_M; simpl; try tauto.
  all: step_page; try tauto.
  all: step_lookup; try tauto.
  all: intros H; eapply paginate_queryset_incl; eassumption.
Qed.

Lemma public_filter_not_future (now : Z) (p : Post.t) (l : list Post.t) :
  (now < Post.pub_date p)%Z ->
  ~ In p (filter (fun q => Post.is_published q && (Post.pub_date q <=? now)%Z) l).
Proof.
  intros Hfuture Hin. apply filter_In in Hin. destruct Hin as [_ Hc].
  apply andb_prop in Hc. destruct Hc as [_ Hle].
  apply Z.leb_le in Hle. lia.
Qed.

Lemma annotate_comment_count_item (cs : list Comment.t) (l : list Post.t)
  (x : PostItem) :
  In x (annotate_comment_count cs l) -> In (item x) l.
Proof.
  unfold annotate_comment_count. intros H. apply in_map_iff in H.
  destruct H as (p & <- & Hp). exact Hp.
Qed.

(* ===================================================================== *)
(** * Listings *)
(* ===================================================================== *)

(** C10: whatever the request, the page that the index, the category and the
    profile listing hand to the template holds at most
    [PAGINATED_BY] = 10 items. *)
Theorem listing_page_holds_at_most_ten (now : Z) (request : Request) (s : Store) :
  List.length (response_items (fst (BlogIndexListView.as_view now request s))) <= 10
  /\ (forall category_slug,
        List.length
          (response_items
             (fst (BlogCategoryListView.as_view now request category_slug s))) <= 10)
  /\ (forall username,
        List.length
          (response_items
             (fst (AuthorProfileListView.as_view now request username s))) <= 10).
Proof.
  split; [|split; intros name].
  all: unfold_list_view; destruct (method request); simpl; try lia.
  all: try (destruct (user request) as [|u]; cbn [request_username];
            destruct (String.eqb _ name)).
  all: unfold_M; simpl; try lia.
  all: step_page; try lia.
  all: apply paginate_queryset_length in Epage;
    unfold BlogIndexListView.paginate_by, BlogCategoryListView.paginate_by,
      AuthorProfileListView.paginate_by, PAGINATED_BY in Epage.
  all: try step_lookup; simpl; lia.
Qed.

(** C6: a post dated after [now] is on no page of the index, of a category
    listing, or of a profile viewed by anyone whose username is not the
    profile's; it is on some page of its author's profile when the author
    is the one who views it. *)
Theorem future_post_only_on_own_profile (s : Store) (now : Z) (p : Post.t) :
  (now < Post.pub_date p)%Z ->
  (forall request,
      ~ In p (response_posts (fst (BlogIndexListView.as_view now request s))))
  /\ (forall request category_slug,
         ~ In p (response_posts
                   (fst (BlogCategoryListView.as_view now request category_slug s))))
  /\ (forall request username,
         request_username (user request) <> username ->
         ~ In p (response_posts
                   (fst (AuthorProfileListView.as_view now request username s))))
  /\ (forall (u profile : User.t) (path : string),
         In p (posts s) ->
         Post.author p = User.pk u ->
         filter (fun v => String.eqb (User.username v) (User.username u))
                (users s) = [profile] ->
         exists n : Z,
           In p (response_posts
                   (fst (AuthorProfileListView.as_view now
                           {| method := GET; user := Authenticated u;
                              path := path; page := PageInt n |}
                           (User.username u) s)))).
Proof.
  intros Hfuture. repeat split.
  - intros request Hin. unfold response_posts in Hin.
    apply in_map_iff in Hin. destruct Hin as (x & <- & Hx).
    apply BlogIndexListView_lists, annotate_comment_count_item in Hx.
    apply filter_In in Hx. destruct Hx as [Hx _].
    exact (public_filter_not_future _ _ _ Hfuture Hx).
  - intros request category_slug Hin. unfold response_posts in Hin.
    apply in_map_iff in Hin. destruct Hin as (x & <- & Hx).
    apply BlogCategoryListView_lists in Hx. destruct Hx as [Hx _].
    apply annotate_comment_count_item, filter_In in Hx. destruct Hx as [Hx _].
    exact (public_filter_not_future _ _ _ Hfuture Hx).
  - intros request username Hother Hin. unfold response_posts in Hin.
    apply in_map_iff in Hin. destruct Hin as (x & <- & Hx).
    apply AuthorProfileListView_lists in Hx.
    assert (Hpub : In x (profile_queryset now username s)).
    { destruct (user request) as [|u]; [exact Hx|].
      simpl in Hother.
      destruct (String.eqb (User.username u) username) eqn:E; [|exact Hx].
      apply String.eqb_eq in E. contradiction. }
    apply annotate_comment_count_item, filter_In in Hpub. destruct Hpub as [Hpub _].
    exact (public_filter_not_future _ _ _ Hfuture Hpub).
  - intros u profile path Hin Hauthor Hprofile.
    assert (Hown : In {| item := p; comment_count := None |} (own_queryset u s)).
    { unfold own_queryset, plain.
      apply (in_map (fun q => {| item := q; comment_count := None |})).
      apply filter_In. split; [exact Hin|].
      rewrite Hauthor. apply Nat.eqb_refl. }
    destruct (Paginator_page_complete (own_queryset u s) PAGINATED_BY _ s
                ltac:(unfold PAGINATED_BY; lia) Hown) as (n & pg & Hpage & Hpg).
    exists n. unfold_list_view. simpl.
    rewrite String.eqb_refl. unfold_M.
    unfold AuthorProfileListView.paginate_by. fold (own_queryset u s).
    rewrite Hpage.
    rewrite (get_object_or_404_found _ _ _ _ Hprofile). simpl.
    unfold response_posts. simpl.
    apply (in_map item) in Hpg. exact Hpg.
Qed.

(** A run of C6 on the small blog at clock reading 200: the post dated 500. *)
Lemma future_post_only_on_own_profile_witness :
  (Blog.now < Post.pub_date Blog.future)%Z
  /\ exists n : Z,
       In Blog.future
          (response_posts
             (fst (AuthorProfileListView.as_view Blog.now
                     {| method := GET; user := Authenticated Blog.alice;
                        path := "/profile/alice/"; page := PageInt n |}
                     "alice" Blog.store))).
Proof.
  split; [reflexivity|].
  refine (proj2 (proj2 (proj2
            (future_post_only_on_own_profile Blog.store Blog.now Blog.future _)))
            Blog.alice Blog.alice "/profile/alice/" _ _ _).
  - reflexivity.
  - simpl. tauto.
  - reflexivity.
  - reflexivity.
Defined.

(** Every post on a page of the index passes the visibility filter, and
    bears the number of its comments. *)
Lemma BlogIndexListView_visible (now : Z) (request : Request) (s : Store)
  (x : PostItem) :
  In x (response_items (fst (BlogIndexListView.as_view now request s))) ->
  publicly_visible s now (item x) = true
  /\ comment_count x = Some (count_comments s (item x)).
Proof.
  intros H. apply BlogIndexListView_lists in H.
  unfold index_queryset, annotate_comment_count in H.
  apply in_map_iff in H. destruct H as (p & <- & Hp). simpl.
  apply filter_In in Hp. destruct Hp as [Hp Hcat].
  apply filter_In in Hp. destruct Hp as [_ Hpub].
  unfold publicly_visible. rewrite Hpub, Hcat. split; reflexivity.
Qed.

(* ===================================================================== *)
(** * Creating posts and comments *)
(* ===================================================================== *)

(** C7: for an authenticated user who submits a valid comment form, the
    comment view looks the post up by the identifier of the URL and by
    nothing else: whatever the publish flag, publish timestamp and category
    of the post found, one comment is added whose post is that post and
    whose author is the user, and the user is sent to the post's page; when
    no post has the identifier the response is not-found and the store is
    as before. *)
Theorem comment_create_checks_only_existence (s : Store) (now : Z)
  (request : Request) (u : User.t) (post_id : nat) (f : CreateCommentForm) :
  user request = Authenticated u ->
  method request = POST \/ method request = PUT ->
  (forall p : Post.t,
      filter (fun q => Post.pk q =? post_id) (posts s) = [p] ->
      Post.pk p = post_id
      /\ CommentCreateView.as_view now request (Valid f) post_id s =
         (HttpResponseRedirect
            (Reversed "blog:post_detail" [("post_id", IntArg post_id)]),
          {| users := users s;
             categories := categories s;
             posts := posts s;
             comments :=
               comments s ++
               [{| Comment.pk := next_pk (map Comment.pk (comments s));
                   Comment.post := Post.pk p;
                   Comment.author := User.pk u;
                   Comment.text := form_comment_text f;
                   Comment.created_at := now |}] |}))
  /\ (filter (fun q => Post.pk q =? post_id) (posts s) = [] ->
      CommentCreateView.as_view now request (Valid f) post_id s =
      (HttpResponseNotFound, s)).
Proof.
  intros Huser Hmethod.
  unfold CommentCreateView.as_view, respond, CommentCreateView.dispatch,
    LoginRequiredMixin_dispatch, View_dispatch, FormView_handlers,
    CommentCreateView.post, ProcessFormView_post, CommentCreateView.form_valid.
  rewrite Huser. simpl.
  split.
  - intros p Hp. split.
    + apply filter_singleton in Hp. destruct Hp as [_ Hp].
      apply Nat.eqb_eq in Hp. exact Hp.
    + destruct Hmethod as [-> | ->]; unfold bind at 1.
      all: rewrite (get_object_or_404_found _ _ _ _ Hp); reflexivity.
  - intros Hnone.
    destruct Hmethod as [-> | ->]; unfold bind at 1.
    all: rewrite (get_object_or_404_missing _ _ _ Hnone); reflexivity.
Qed.

(** A run of C7 on the small blog: [bob] comments on the post that sits in
    the unpublished category. *)
Lemma comment_create_checks_only_existence_witness :
  category__is_published (categories Blog.store) Blog.in_drafts = false
  /\ Post.pk Blog.in_drafts = 2
  /\ CommentCreateView.as_view Blog.now
       (Blog.request POST (Authenticated Blog.bob)) (Valid Blog.a_comment_form)
       2 Blog.store =
     (HttpResponseRedirect (Reversed "blog:post_detail" [("post_id", IntArg 2)]),
      {| users := users Blog.store;
         categories := categories Blog.store;
         posts := posts Blog.store;
         comments :=
           comments Blog.store ++
           [{| Comment.pk := next_pk (map Comment.pk (comments Blog.store));
               Comment.post := Post.pk Blog.in_drafts;
               Comment.author := User.pk Blog.bob;
               Comment.text := form_comment_text Blog.a_comment_form;
               Comment.created_at := Blog.now |}] |}).
Proof.
  split; [reflexivity|].
  refine (proj1 (comment_create_checks_only_existence Blog.store Blog.now
                   (Blog.request POST (Authenticated Blog.bob)) Blog.bob 2
                   Blog.a_comment_form _ _) Blog.in_drafts _).
  - reflexivity.
  - left. reflexivity.
  - reflexivity.
Defined.

(** C8: an authenticated user who submits a valid post form gets one post
    added, with the form's data and the user as its author, and is sent to
    the user's own profile. *)
Theorem post_create_sets_author (s : Store) (request : Request) (u : User.t)
  (f : CreatePostForm) :
  user request = Authenticated u ->
  method request = POST \/ method request = PUT ->
  PostCreateView.as_view request (Valid f) s =
  (HttpResponseRedirect
     (Reversed "blog:profile" [("username", StrArg (User.username u))]),
   {| users := users s;
      categories := categories s;
      posts :=
        posts s ++
        [{| Post.pk := next_pk (map Post.pk (posts s));
            Post.author := User.pk u;
            Post.category := form_category f;
            Post.location := form_location f;
            Post.is_published := form_is_published f;
            Post.pub_date := form_pub_date f;
            Post.text := form_text f |}];
      comments := comments s |}).
Proof.
  intros Huser Hmethod.
  unfold PostCreateView.as_view, respond, PostCreateView.dispatch,
    LoginRequiredMixin_dispatch, View_dispatch, FormView_handlers,
    PostCreateView.post, ProcessFormView_post, PostCreateView.form_valid,
    PostCreateView.get_success_url.
  rewrite Huser. simpl.
  destruct Hmethod as [-> | ->]; reflexivity.
Qed.

(** A run of C8 on the small blog: [bob] publishes a post. *)
Lemma post_create_sets_author_witness :
  user (Blog.request POST (Authenticated Blog.bob)) = Authenticated Blog.bob
  /\ PostCreateView.as_view (Blog.request POST (Authenticated Blog.bob))
       (Valid Blog.a_post_form) Blog.store =
     (HttpResponseRedirect (Reversed "blog:profile" [("username", StrArg "bob")]),
      {| users := users Blog.store;
         categories := categories Blog.store;
         posts :=
           posts Blog.store ++
           [{| Post.pk := 5;
               Post.author := 2;
               Post.category := 1;
               Post.location := None;
               Post.is_published := true;
               Post.pub_date := 300;
               Post.text := "new" |}];
         comments := comments Blog.store |}).
Proof.
  split; [reflexivity|].
  apply (post_create_sets_author Blog.store
           (Blog.request POST (Authenticated Blog.bob)) Blog.bob Blog.a_post_form).
  - reflexivity.
  - left. reflexivity.
Defined.

(* ===================================================================== *)
(** * The ownership guard and the login requirement *)
(* ===================================================================== *)

Ltac unfold_edit_view :=
  unfold PostDeleteView.as_view, PostDeleteView.dispatch, PostDeleteView.delete,
    PostDeleteView.get, PostDeleteView.get_object,
    PostUpdateView.as_view, PostUpdateView.dispatch,
    CommentDeleteView.as_view, CommentDeleteView.dispatch,
    CommentDeleteView.delete, CommentDeleteView.get, CommentDeleteView.get_object,
    CommentUpdateView.as_view, CommentUpdateView.dispatch,
    PostCreateView.as_view, PostCreateView.dispatch,
    CommentCreateView.as_view, CommentCreateView.dispatch,
    respond, LoginRequiredMixin_dispatch, View_dispatch, DeleteView_handlers,
    FormView_handlers, BaseDetailView_get, SingleObjectMixin_get_object,
    PostsEditMixin.queryset, CommentEditMixin.queryset.

(** The update views answer before they look at the method or at the
    session: whoever is not the author, signed in or not, meets the
    [redirect] to ['blog:post_detail'] with the keyword [pk], which that
    route does not have. *)
Lemma PostUpdateView_other_user (request : Request)
  (form : BoundForm CreatePostForm) (post_id : nat) (s : Store) (p : Post.t) :
  filter (fun q => Post.pk q =? post_id) (posts s) = [p] ->
  user_eq (user request) (Post.author p) = false ->
  PostUpdateView.as_view request form post_id s =
  (HttpResponseServerError NoReverseMatch, s).
Proof.
  intros Hp Hother. unfold_edit_view. unfold bind at 1.
  rewrite (get_object_or_404_found _ _ _ _ Hp), Hother. reflexivity.
Qed.

Lemma CommentUpdateView_other_user (request : Request)
  (form : BoundForm CreateCommentForm) (post_id comment_pk : nat) (s : Store)
  (c : Comment.t) :
  filter (fun q => Comment.pk q =? comment_pk) (comments s) = [c] ->
  user_eq (user request) (Comment.author c) = false ->
  CommentUpdateView.as_view request form post_id comment_pk s =
  (HttpResponseServerError NoReverseMatch, s).
Proof.
  intros Hc Hother. unfold_edit_view. unfold bind at 1.
  rewrite (get_object_or_404_found _ _ _ _ Hc), Hother. reflexivity.
Qed.

(** The delete views guard the request that deletes, and only that one. *)
Lemma PostDeleteView_other_user (request : Request) (post_id : nat) (s : Store)
  (u : User.t) (p : Post.t) :
  user request = Authenticated u ->
  method request = POST \/ method request = DELETE ->
  filter (fun q => Post.pk q =? post_id) (posts s) = [p] ->
  user_eq (user request) (Post.author p) = false ->
  PostDeleteView.as_view request post_id s =
  (HttpResponseRedirect (Reversed "blog:index" []), s).
Proof.
  intros Hu Hm Hp Hother. unfold_edit_view. rewrite Hu in *.
  cbn [is_authenticated negb]. destruct Hm as [-> | ->]; unfold bind at 1.
  all: rewrite (get_object_or_404_found _ _ _ _ Hp), Hother; reflexivity.
Qed.

Lemma CommentDeleteView_other_user (request : Request) (post_id comment_pk : nat)
  (s : Store) (u : User.t) (c : Comment.t) :
  user request = Authenticated u ->
  method request = POST \/ method request = DELETE ->
  filter (fun q => Comment.pk q =? comment_pk) (comments s) = [c] ->
  user_eq (user request) (Comment.author c) = false ->
  CommentDeleteView.as_view request post_id comment_pk s =
  (HttpResponseServerError NoReverseMatch, s).
Proof.
  intros Hu Hm Hc Hother. unfold_edit_view. rewrite Hu in *.
  cbn [is_authenticated negb]. destruct Hm as [-> | ->]; unfold bind at 1.
  all: rewrite (get_object_or_404_found _ _ _ _ Hc), Hother; reflexivity.
Qed.

Lemma PostDeleteView_confirmation (request : Request) (post_id : nat) (s : Store)
  (u : User.t) (p : Post.t) :
  user request = Authenticated u ->
  method request = GET ->
  filter (fun q => Post.pk q =? post_id) (posts s) = [p] ->
  PostDeleteView.as_view request post_id s =
  (TemplateResponse "blog/create.html" (ObjectContext (PostObject p)), s).
Proof.
  intros Hu Hm Hp. unfold_edit_view. rewrite Hu, Hm.
  cbn [is_authenticated negb]. unfold bind. rewrite (get_object_or_404_found _ _ _ _ Hp). reflexivity.
Qed.

Lemma CommentDeleteView_confirmation (request : Request) (post_id comment_pk : nat)
  (s : Store) (u : User.t) (c : Comment.t) :
  user request = Authenticated u ->
  method request = GET ->
  filter (fun q => Comment.pk q =? comment_pk) (comments s) = [c] ->
  CommentDeleteView.as_view request post_id comment_pk s =
  (TemplateResponse "blog/comment.html" (ObjectContext (CommentObject c)), s).
Proof.
  intros Hu Hm Hc. unfold_edit_view. rewrite Hu, Hm.
  cbn [is_authenticated negb]. unfold bind. rewrite (get_object_or_404_found _ _ _ _ Hc). reflexivity.
Qed.

(** Where [LoginRequiredMixin.dispatch] is the first [dispatch] of the
    class, a request without session goes to the login page and the store
    stays as it is. *)
Lemma login_required_first (request : Request) (s : Store) :
  user request = AnonymousUser ->
  (forall post_id,
      PostDeleteView.as_view request post_id s =
      (HttpResponseRedirect (LoginURL (path request)), s))
  /\ (forall post_id comment_pk,
         CommentDeleteView.as_view request post_id comment_pk s =
         (HttpResponseRedirect (LoginURL (path request)), s))
  /\ (forall form,
         PostCreateView.as_view request form s =
         (HttpResponseRedirect (LoginURL (path request)), s))
  /\ (forall now form post_id,
         CommentCreateView.as_view now request form post_id s =
         (HttpResponseRedirect (LoginURL (path request)), s)).
Proof.
  intros Hu. repeat split; intros; unfold_edit_view; rewrite Hu; reflexivity.
Qed.

(** The update views never change the store for a request without session,
    though they do not send it to the login page. *)
Lemma update_views_anonymous_store (request : Request) (s : Store) :
  user request = AnonymousUser ->
  (forall form post_id, snd (PostUpdateView.as_view request form post_id s) = s)
  /\ (forall form post_id comment_pk,
         snd (CommentUpdateView.as_view request form post_id comment_pk s) = s).
Proof.
  intros Hu. split; intros; unfold_edit_view; rewrite Hu; unfold bind at 1.
  - pose proof (get_object_or_404_store posts (fun p => Post.pk p =? post_id) s) as H.
    destruct (get_object_or_404 posts _ s) as [[p | []] s']; simpl in *; subst;
      reflexivity.
  - pose proof (get_object_or_404_store comments
                  (fun c => Comment.pk c =? comment_pk) s) as H.
    destruct (get_object_or_404 comments _ s) as [[c | []] s']; simpl in *; subst;
      reflexivity.
Qed.

(* ===================================================================== *)
(** * Where the views part from the specification *)
(* ===================================================================== *)

(** C1: a signed-in user who is not the author is to be redirected, the
    entity left alone.  The entity is left alone, but on the small blog
    [bob]'s attempt to edit [alice]'s post, and [alice]'s attempts to edit
    and to delete [bob]'s comment, end in [NoReverseMatch] instead of a
    redirect (the views pass [pk] to a route whose parameter is [post_id]),
    and [bob]'s GET of the delete page of [alice]'s post is answered with
    that page. *)
Theorem non_author_is_not_always_redirected :
  PostUpdateView.as_view (Blog.request POST (Authenticated Blog.bob))
    (Valid Blog.a_post_form) 1 Blog.store
  = (HttpResponseServerError NoReverseMatch, Blog.store)
  /\ CommentUpdateView.as_view (Blog.request POST (Authenticated Blog.alice))
       (Valid Blog.a_comment_form) 1 1 Blog.store
     = (HttpResponseServerError NoReverseMatch, Blog.store)
  /\ CommentDeleteView.as_view (Blog.request POST (Authenticated Blog.alice))
       1 1 Blog.store
     = (HttpResponseServerError NoReverseMatch, Blog.store)
  /\ PostDeleteView.as_view (Blog.request GET (Authenticated Blog.bob))
       1 Blog.store
     = (TemplateResponse "blog/create.html"
          (ObjectContext (PostObject Blog.ordinary)), Blog.store)
  /\ PostDeleteView.as_view (Blog.request POST (Authenticated Blog.bob))
       1 Blog.store
     = (HttpResponseRedirect (Reversed "blog:index" []), Blog.store).
Proof. repeat split; reflexivity. Qed.

(** C2: the ownership check is to stand on the path that shows the form and
    on the path that acts.  The delete views check in [delete] only: on the
    small blog [bob], who did not write post 1, and [alice], who did not
    write comment 1, are shown the confirmation pages on GET, while the
    update views turn the same users away on GET. *)
Theorem delete_confirmation_shown_to_non_author :
  user_eq (Authenticated Blog.bob) (Post.author Blog.ordinary) = false
  /\ PostDeleteView.as_view (Blog.request GET (Authenticated Blog.bob))
       1 Blog.store
     = (TemplateResponse "blog/create.html"
          (ObjectContext (PostObject Blog.ordinary)), Blog.store)
  /\ user_eq (Authenticated Blog.alice) (Comment.author Blog.a_comment) = false
  /\ CommentDeleteView.as_view (Blog.request GET (Authenticated Blog.alice))
       1 1 Blog.store
     = (TemplateResponse "blog/comment.html"
          (ObjectContext (CommentObject Blog.a_comment)), Blog.store)
  /\ (forall form,
        exists e,
          fst (PostUpdateView.as_view (Blog.request GET (Authenticated Blog.bob))
                 form 1 Blog.store) = HttpResponseServerError e)
  /\ (forall form,
        exists e,
          fst (CommentUpdateView.as_view
                 (Blog.request GET (Authenticated Blog.alice))
                 form 1 1 Blog.store) = HttpResponseServerError e).
Proof.
  repeat split; try reflexivity; intros form; eexists; reflexivity.
Qed.

(** C3: a reader who is not the author is to get a post that passes the
    visibility filter, timestamp not after [now].  [get_object] compares
    with [pub_date__lt]: the post of the small blog dated exactly [now]
    passes the filter and is on the index, yet its detail page is
    not-found for [bob]. *)
Theorem detail_not_found_at_publication_instant :
  Post.pub_date Blog.just_now = Blog.now
  /\ publicly_visible Blog.store Blog.now Blog.just_now = true
  /\ user_eq (Authenticated Blog.bob) (Post.author Blog.just_now) = false
  /\ In Blog.just_now
        (response_posts
           (fst (BlogIndexListView.as_view Blog.now
                   (Blog.request GET (Authenticated Blog.bob)) Blog.store)))
  /\ PostDetailView.as_view Blog.now (Blog.request GET (Authenticated Blog.bob))
       4 Blog.store
     = (HttpResponseNotFound, Blog.store).
Proof.
  repeat split; try reflexivity. simpl. tauto.
Qed.

(** C4: a public listing is to show only posts whose category is published.
    The profile listing filters on publish flag, timestamp and author only:
    on the small blog the post in the unpublished category is on [alice]'s
    profile as [bob] and as a visitor without session see it. *)
Theorem profile_lists_post_of_unpublished_category :
  category__is_published (categories Blog.store) Blog.in_drafts = false
  /\ In Blog.in_drafts
        (response_posts
           (fst (AuthorProfileListView.as_view Blog.now
                   (Blog.request GET (Authenticated Blog.bob)) "alice" Blog.store)))
  /\ In Blog.in_drafts
        (response_posts
           (fst (AuthorProfileListView.as_view Blog.now
                   (Blog.request GET AnonymousUser) "alice" Blog.store))).
Proof.
  repeat split; try reflexivity; simpl; tauto.
Qed.

(** C5: every listed post is to bear the number of its comments.  The
    queryset of a profile viewed by its owner is not annotated: on the small
    blog [alice] sees her four posts without [comment_count], the first of
    which has one comment. *)
Theorem own_profile_items_bear_no_comment_count :
  count_comments Blog.store Blog.ordinary = 1
  /\ response_items
       (fst (AuthorProfileListView.as_view Blog.now
               (Blog.request GET (Authenticated Blog.alice)) "alice" Blog.store))
     = [ {| item := Blog.ordinary; comment_count := None |};
         {| item := Blog.in_drafts; comment_count := None |};
         {| item := Blog.future; comment_count := None |};
         {| item := Blog.just_now; comment_count := None |} ].
Proof. split; reflexivity. Qed.

(** C9: a request without session to a mutating route is to be sent to the
    login page.  The update views compare the user with the author before
    [LoginRequiredMixin.dispatch] runs: on the small blog such a request for
    an existing post or comment ends in the failed redirect to the post's
    page, and for a missing one in not-found; the store is as before. *)
Theorem anonymous_update_not_sent_to_login :
  PostUpdateView.as_view (Blog.request GET AnonymousUser) Invalid 1 Blog.store
  = (HttpResponseServerError NoReverseMatch, Blog.store)
  /\ PostUpdateView.as_view (Blog.request POST AnonymousUser)
       (Valid Blog.a_post_form) 9 Blog.store
     = (HttpResponseNotFound, Blog.store)
  /\ CommentUpdateView.as_view (Blog.request GET AnonymousUser) Invalid 1 1
       Blog.store
     = (HttpResponseServerError NoReverseMatch, Blog.store)
  /\ CommentUpdateView.as_view (Blog.request POST AnonymousUser)
       (Valid Blog.a_comment_form) 1 9 Blog.store
     = (HttpResponseNotFound, Blog.store)
  /\ PostDeleteView.as_view (Blog.request POST AnonymousUser) 1 Blog.store
     = (HttpResponseRedirect (LoginURL "/here/"), Blog.store).
Proof. repeat split; reflexivity. Qed.

(* ===================================================================== *)
(** * The detail page *)
(* ===================================================================== *)

Lemma filter_andb {A : Type} (f g : A -> bool) (l : list A) :
  filter (fun x => f x && g x) l = filter f (filter g l).
Proof.
  induction l as [|x l IH]; simpl; [reflexivity|].
  destruct (g x); simpl; rewrite ?andb_true_r, ?andb_false_r;
    [destruct (f x)|]; rewrite IH; reflexivity.
Qed.

(** What a GET of the detail page of an existing post answers: the post and
    its comments for the author, and for anyone else when the post is
    published, in a published category and dated strictly before [now];
    not-found otherwise. *)
Lemma PostDetailView_shows (now : Z) (request : Request) (post_id : nat)
  (s : Store) (p : Post.t) :
  method request = GET ->
  filter (fun q => Post.pk q =? post_id) (posts s) = [p] ->
  PostDetailView.as_view now request post_id s =
  if user_eq (user request) (Post.author p)
     || (Post.is_published p && category__is_published (categories s) p
         && (Post.pub_date p <? now)%Z)
  then (TemplateResponse "blog/detail.html"
          (DetailContext p (filter (fun c => Comment.post c =? Post.pk p)
                                   (comments s))), s)
  else (HttpResponseNotFound, s).
Proof.
  intros Hm Hp.
  assert (Hobj : PostDetailView.get_object now request post_id s =
                 if user_eq (user request) (Post.author p)
                    || (Post.is_published p
                        && category__is_published (categories s) p
                        && (Post.pub_date p <? now)%Z)
                 then (Return p, s) else (Raise Http404, s)).
  { unfold PostDetailView.get_object. unfold bind at 1.
    rewrite (get_object_or_404_found _ _ _ _ Hp).
    destruct (user_eq (user request) (Post.author p)); [reflexivity|].
    unfold bind, query, get_object_or_404. unfold_M.
    rewrite (filter_andb
               (fun q => Post.is_published q
                         && category__is_published (categories s) q
                         && (Post.pub_date q <? now)%Z)
               (fun q => Post.pk q =? post_id)).
    rewrite Hp. simpl.
    destruct (Post.is_published p && category__is_published (categories s) p
              && (Post.pub_date p <? now)%Z); reflexivity. }
  unfold PostDetailView.as_view, respond, PostDetailView.dispatch, View_dispatch,
    ReadView_handlers, PostDetailView.get, PostDetailView.get_context_data.
  rewrite Hm. unfold bind at 1. rewrite Hobj.
  destruct (user_eq (user request) (Post.author p)
            || (Post.is_published p && category__is_published (categories s) p
                && (Post.pub_date p <? now)%Z)) eqn:E; [|reflexivity].
  unfold bind at 1. unfold bind at 1. rewrite Hobj. reflexivity.
Qed.

(* ===================================================================== *)
(** * The public listings, in general *)
(* ===================================================================== *)

(** The three public querysets are annotated with the right count. *)
Lemma public_items_counted (now : Z) (name : string) (s : Store) (x : PostItem) :
  In x (index_queryset now s)
  \/ In x (category_queryset now name s)
  \/ In x (profile_queryset now name s) ->
  comment_count x = Some (count_comments s (item x)).
Proof.
  unfold index_queryset, category_queryset, profile_queryset,
    annotate_comment_count.
  intros [H | [H | H]]; apply in_map_iff in H; destruct H as (p & <- & _);
    reflexivity.
Qed.

Lemma unique_key {A K : Type} (key : A -> K) (l : list A) (x y : A) :
  NoDup (map key l) -> In x l -> In y l -> key x = key y -> x = y.
Proof.
  induction l as [|a l IH]; simpl; [tauto|].
  intros Hnd Hx Hy Hk. inversion Hnd as [|? ? Hnotin Hnd']; subst.
  destruct Hx as [-> | Hx], Hy as [-> | Hy]; auto.
  - exfalso. apply Hnotin. rewrite Hk. apply in_map. exact Hy.
  - exfalso. apply Hnotin. rewrite <- Hk. apply in_map. exact Hx.
Qed.

(** When no two categories share a slug, every post on a page of a category
    listing passes the visibility filter: the listing itself does not look
    at the category's publish flag, but [get_context_data] answers
    not-found unless the category of that slug is published. *)
Lemma BlogCategoryListView_visible (now : Z) (request : Request)
  (category_slug : string) (s : Store) (x : PostItem) :
  NoDup (map Category.slug (categories s)) ->
  In x (response_items
          (fst (BlogCategoryListView.as_view now request category_slug s))) ->
  publicly_visible s now (item x) = true.
Proof.
  intros Hnd H. apply BlogCategoryListView_lists in H.
  destruct H as [Hx (c & Hc)].
  apply annotate_comment_count_item in Hx.
  apply filter_In in Hx. destruct Hx as [Hx Hslug].
  apply filter_In in Hx. destruct Hx as [_ Hpub].
  unfold publicly_visible. rewrite Hpub. simpl.
  apply filter_singleton in Hc. destruct Hc as [Hcin Hc].
  apply andb_prop in Hc. destruct Hc as [Hcslug Hcpub].
  apply String.eqb_eq in Hcslug.
  unfold category__slug in Hslug. apply existsb_exists in Hslug.
  destruct Hslug as (c' & Hc'in & Hc').
  apply andb_prop in Hc'. destruct Hc' as [Hpk Hc'slug].
  apply String.eqb_eq in Hc'slug.
  assert (c' = c)
    by (apply (unique_key Category.slug (categories s)); congruence).
  subst c'. unfold category__is_published. apply existsb_exists.
  exists c. split; [exact Hcin|]. rewrite Hpk, Hcpub. reflexivity.
Qed.

(* ===================================================================== *)
(** * Who may change what *)
(* ===================================================================== *)

Lemma redirect_store (to : string) (kwargs : list (string * Arg)) (s : Store) :
  snd (redirect to kwargs s) = s.
Proof.
  unfold redirect, reverse. unfold_M.
  destruct (route_params to urlpatterns) as [ps|]; [|reflexivity].
  destruct (same_names (map fst kwargs) ps); reflexivity.
Qed.

Lemma respond_store (view : M Response) (s : Store) :
  snd (view s) = s -> snd (respond view s) = s.
Proof.
  unfold respond. destruct (view s) as [[r | []] s']; simpl; auto.
Qed.

Lemma looked_up_satisfies {A : Type} (table : Store -> list A)
  (cond : A -> bool) (s s' : Store) (x : A) :
  get_object_or_404 table cond s = (Return x, s') ->
  s' = s /\ In x (table s) /\ cond x = true.
Proof.
  intros H. apply get_object_or_404_inv in H. destruct H as [-> H].
  apply filter_singleton in H. tauto.
Qed.

(** X1: a request whose user wrote no post of the identifier in the URL,
    whatever its method, its session and its form, leaves the store as it
    is on the post-delete and on the post-update route. *)
Theorem only_author_changes_post (request : Request)
  (form : BoundForm CreatePostForm) (post_id : nat) (s : Store) :
  (forall p, In p (posts s) -> Post.pk p = post_id ->
             user_eq (user request) (Post.author p) = false) ->
  snd (PostDeleteView.as_view request post_id s) = s
  /\ snd (PostUpdateView.as_view request form post_id s) = s.
Proof.
  intros Hother.
  split; apply respond_store.
  - unfold PostDeleteView.dispatch, LoginRequiredMixin_dispatch.
    destruct (negb (is_authenticated (user request))); [reflexivity|].
    unfold View_dispatch, DeleteView_handlers.
    destruct (method request); try reflexivity.
    1,4: unfold PostDeleteView.get, BaseDetailView_get, PostDeleteView.get_object,
      SingleObjectMixin_get_object, PostsEditMixin.queryset, bind;
      pose proof (get_object_or_404_store posts (fun o => Post.pk o =? post_id) s) as H;
      destruct (get_object_or_404 posts _ s) as [[p | e] s']; exact H.
    all: unfold PostDeleteView.delete, bind;
      destruct (get_object_or_404 posts _ s) as [[p | e] s'] eqn:E;
      [ destruct (looked_up_satisfies _ _ _ _ _ E) as (-> & Hin & Hpk);
        apply Nat.eqb_eq in Hpk; rewrite (Hother p Hin Hpk); apply redirect_store
      | pose proof (get_object_or_404_store posts (fun o => Post.pk o =? post_id) s) as H;
        rewrite E in H; exact H ].
  - unfold PostUpdateView.dispatch, bind.
    destruct (get_object_or_404 posts _ s) as [[p | e] s'] eqn:E.
    + destruct (looked_up_satisfies _ _ _ _ _ E) as (-> & Hin & Hpk).
      apply Nat.eqb_eq in Hpk. rewrite (Hother p Hin Hpk). apply redirect_store.
    + pose proof (get_object_or_404_store posts (fun o => Post.pk o =? post_id) s) as H.
      rewrite E in H. exact H.
Qed.

(** X1 on the small blog: [bob], who wrote none of the posts, posts a valid
    form to the update route and a delete request for post 1. *)
Lemma only_author_changes_post_witness :
  snd (PostDeleteView.as_view (Blog.request POST (Authenticated Blog.bob))
         1 Blog.store) = Blog.store
  /\ snd (PostUpdateView.as_view (Blog.request POST (Authenticated Blog.bob))
            (Valid Blog.a_post_form) 1 Blog.store) = Blog.store.
Proof.
  apply (only_author_changes_post (Blog.request POST (Authenticated Blog.bob))
           (Valid Blog.a_post_form) 1 Blog.store).
  intros p Hin _. simpl in Hin.
  destruct Hin as [<- | [<- | [<- | [<- | []]]]]; reflexivity.
Defined.

(** X2: a request whose user wrote no comment of the identifier in the URL,
    whatever its method, its session and its form, leaves the store as it
    is on the comment-delete and on the comment-update route. *)
Theorem only_author_changes_comment (request : Request)
  (form : BoundForm CreateCommentForm) (post_id comment_pk : nat) (s : Store) :
  (forall c, In c (comments s) -> Comment.pk c = comment_pk ->
             user_eq (user request) (Comment.author c) = false) ->
  snd (CommentDeleteView.as_view request post_id comment_pk s) = s
  /\ snd (CommentUpdateView.as_view request form post_id comment_pk s) = s.
Proof.
  intros Hother.
  split; apply respond_store.
  - unfold CommentDeleteView.dispatch, LoginRequiredMixin_dispatch.
    destruct (negb (is_authenticated (user request))); [reflexivity|].
    unfold View_dispatch, DeleteView_handlers.
    destruct (method request); try reflexivity.
    1,4: unfold CommentDeleteView.get, BaseDetailView_get,
      CommentDeleteView.get_object, SingleObjectMixin_get_object,
      CommentEditMixin.queryset, bind;
      pose proof (get_object_or_404_store comments
                    (fun o => Comment.pk o =? comment_pk) s) as H;
      destruct (get_object_or_404 comments _ s) as [[c | e] s']; exact H.
    all: unfold CommentDeleteView.delete, bind;
      destruct (get_object_or_404 comments _ s) as [[c | e] s'] eqn:E;
      [ destruct (looked_up_satisfies _ _ _ _ _ E) as (-> & Hin & Hpk);
        apply Nat.eqb_eq in Hpk; rewrite (Hother c Hin Hpk); apply redirect_store
      | pose proof (get_object_or_404_store comments
                      (fun o => Comment.pk o =? comment_pk) s) as H;
        rewrite E in H; exact H ].
  - unfold CommentUpdateView.dispatch, bind.
    destruct (get_object_or_404 comments _ s) as [[c | e] s'] eqn:E.
    + destruct (looked_up_satisfies _ _ _ _ _ E) as (-> & Hin & Hpk).
      apply Nat.eqb_eq in Hpk. rewrite (Hother c Hin Hpk). apply redirect_store.
    + pose proof (get_object_or_404_store comments
                    (fun o => Comment.pk o =? comment_pk) s) as H.
      rewrite E in H. exact H.
Qed.

(** X2 on the small blog: [alice], who did not write the comment, asks to
    delete and to rewrite it. *)
Lemma only_author_changes_comment_witness :
  snd (CommentDeleteView.as_view (Blog.request DELETE (Authenticated Blog.alice))
         1 1 Blog.store) = Blog.store
  /\ snd (CommentUpdateView.as_view (Blog.request POST (Authenticated Blog.alice))
            (Valid Blog.a_comment_form) 1 1 Blog.store) = Blog.store.
Proof.
  apply (only_author_changes_comment
           (Blog.request DELETE (Authenticated Blog.alice))
           (Valid Blog.a_comment_form) 1 1 Blog.store).
  intros c Hin _. simpl in Hin. destruct Hin as [<- | []]. reflexivity.
Defined.

(* ===================================================================== *)
(** * What the author's request does *)
(* ===================================================================== *)

Section Rows.
Context {A : Type}.
Variables (key : A -> nat) (k : nat) (new : A).
Hypothesis new_key : key new = k.

Lemma replaced_row_found (l : list A) :
  filter (fun q => key q =? k) (map (fun q => if key q =? k then new else q) l)
  = map (fun _ => new) (filter (fun q => key q =? k) l).
Proof.
  induction l as [|a l IH]; simpl; [reflexivity|].
  destruct (key a =? k) eqn:E; simpl.
  - rewrite new_key, Nat.eqb_refl, IH. reflexivity.
  - rewrite E. exact IH.
Qed.

Lemma other_rows_kept (l : list A) :
  filter (fun q => negb (key q =? k))
         (map (fun q => if key q =? k then new else q) l)
  = filter (fun q => negb (key q =? k)) l.
Proof.
  induction l as [|a l IH]; simpl; [reflexivity|].
  destruct (key a =? k) eqn:E; simpl.
  - rewrite new_key, Nat.eqb_refl. simpl. exact IH.
  - rewrite E. simpl. rewrite IH. reflexivity.
Qed.

Lemma keys_kept (l : list A) :
  map key (map (fun q => if key q =? k then new else q) l) = map key l.
Proof.
  induction l as [|a l IH]; simpl; [reflexivity|].
  rewrite IH. destruct (key a =? k) eqn:E; [|reflexivity].
  apply Nat.eqb_eq in E. congruence.
Qed.

Lemma removed_row_missing (l : list A) :
  filter (fun q => key q =? k) (filter (fun q => negb (key q =? k)) l) = [].
Proof.
  induction l as [|a l IH]; simpl; [reflexivity|].
  destruct (key a =? k) eqn:E; simpl; [exact IH|]. rewrite E. exact IH.
Qed.
End Rows.

Lemma PostDetailView_missing (now : Z) (request : Request) (post_id : nat)
  (s : Store) :
  method request = GET ->
  filter (fun q => Post.pk q =? post_id) (posts s) = [] ->
  PostDetailView.as_view now request post_id s = (HttpResponseNotFound, s).
Proof.
  intros Hm Hnone.
  unfold PostDetailView.as_view, respond, PostDetailView.dispatch, View_dispatch,
    ReadView_handlers, PostDetailView.get, PostDetailView.get_object.
  rewrite Hm. unfold bind.
  rewrite (get_object_or_404_missing _ _ _ Hnone). reflexivity.
Qed.

(** X3: when the author of a post asks to delete it (POST or DELETE), the
    answer is the redirect to the index, the post table loses the rows of
    that identifier and no other, users and categories stay, and from then
    on the detail page of that identifier is not-found for everybody. *)
Theorem author_deletes_post (request : Request) (u : User.t) (post_id : nat)
  (s : Store) (p : Post.t) :
  user request = Authenticated u ->
  method request = POST \/ method request = DELETE ->
  filter (fun q => Post.pk q =? post_id) (posts s) = [p] ->
  User.pk u = Post.author p ->
  let after := snd (PostDeleteView.as_view request post_id s) in
  fst (PostDeleteView.as_view request post_id s)
  = HttpResponseRedirect (Reversed "blog:index" [])
  /\ posts after = filter (fun q => negb (Post.pk q =? post_id)) (posts s)
  /\ users after = users s
  /\ categories after = categories s
  /\ (forall now request',
         method request' = GET ->
         PostDetailView.as_view now request' post_id after
         = (HttpResponseNotFound, after)).
Proof.
  intros Hu Hm Hp Hauthor after.
  assert (Hpk : Post.pk p = post_id).
  { apply filter_singleton in Hp. destruct Hp as [_ Hp].
    apply Nat.eqb_eq in Hp. exact Hp. }
  assert (Hrun : PostDeleteView.as_view request post_id s =
                 (HttpResponseRedirect (Reversed "blog:index" []),
                  {| users := users s; categories := categories s;
                     posts := filter (fun q => negb (Post.pk q =? post_id)) (posts s);
                     comments := filter (fun c => negb (Comment.post c =? post_id))
                                        (comments s) |})).
  { unfold_edit_view. rewrite Hu. cbn [is_authenticated negb].
    destruct Hm as [-> | ->]; unfold bind at 1.
    all: rewrite (get_object_or_404_found _ _ _ _ Hp); cbn [user_eq].
    all: rewrite Hauthor, Nat.eqb_refl; cbn [negb].
    all: unfold DeletionMixin_delete, delete_post, bind.
    all: rewrite (get_object_or_404_found _ _ _ _ Hp), Hpk; reflexivity. }
  subst after. rewrite Hrun. simpl. repeat split.
  intros now request' Hget. apply PostDetailView_missing; [exact Hget|].
  simpl. apply removed_row_missing.
Qed.

(** X3 on the small blog: [alice] deletes her post 1. *)
Lemma author_deletes_post_witness :
  fst (PostDeleteView.as_view (Blog.request POST (Authenticated Blog.alice))
         1 Blog.store)
  = HttpResponseRedirect (Reversed "blog:index" [])
  /\ posts (snd (PostDeleteView.as_view
                   (Blog.request POST (Authenticated Blog.alice)) 1 Blog.store))
     = [Blog.in_drafts; Blog.future; Blog.just_now].
Proof.
  pose proof (author_deletes_post (Blog.request POST (Authenticated Blog.alice))
                Blog.alice 1 Blog.store Blog.ordinary
                eq_refl (or_introl eq_refl) eq_refl eq_refl) as H.
  cbv zeta in H. destruct H as (Hr & Hposts & _).
  split; [exact Hr | exact Hposts].
Defined.

(** X4: when the author of a post submits a valid form to the update route
    (POST or PUT), the answer is the redirect to the post's page; the row
    of that identifier now holds the form's data under the old key and the
    old author; the keys of the table, its other rows, and the comments are
    as before. *)
Theorem author_updates_post (request : Request) (u : User.t)
  (f : CreatePostForm) (post_id : nat) (s : Store) (p : Post.t) :
  user request = Authenticated u ->
  method request = POST \/ method request = PUT ->
  filter (fun q => Post.pk q =? post_id) (posts s) = [p] ->
  User.pk u = Post.author p ->
  let after := snd (PostUpdateView.as_view request (Valid f) post_id s) in
  fst (PostUpdateView.as_view request (Valid f) post_id s)
  = HttpResponseRedirect (Reversed "blog:post_detail" [("post_id", IntArg post_id)])
  /\ filter (fun q => Post.pk q =? post_id) (posts after)
     = [{| Post.pk := post_id;
           Post.author := Post.author p;
           Post.category := form_category f;
           Post.location := form_location f;
           Post.is_published := form_is_published f;
           Post.pub_date := form_pub_date f;
           Post.text := form_text f |}]
  /\ map Post.pk (posts after) = map Post.pk (posts s)
  /\ filter (fun q => negb (Post.pk q =? post_id)) (posts after)
     = filter (fun q => negb (Post.pk q =? post_id)) (posts s)
  /\ comments after = comments s
  /\ users after = users s
  /\ categories after = categories s.
Proof.
  intros Hu Hm Hp Hauthor after.
  assert (Hpk : Post.pk p = post_id).
  { apply filter_singleton in Hp. destruct Hp as [_ Hp].
    apply Nat.eqb_eq in Hp. exact Hp. }
  set (p' := {| Post.pk := post_id; Post.author := Post.author p;
                Post.category := form_category f;
                Post.location := form_location f;
                Post.is_published := form_is_published f;
                Post.pub_date := form_pub_date f;
                Post.text := form_text f |}).
  assert (Hrun : PostUpdateView.as_view request (Valid f) post_id s =
                 (HttpResponseRedirect
                    (Reversed "blog:post_detail" [("post_id", IntArg post_id)]),
                  {| users := users s; categories := categories s;
                     posts := map (fun q => if Post.pk q =? post_id then p' else q)
                                  (posts s);
                     comments := comments s |})).
  { unfold_edit_view. unfold bind at 1.
    rewrite (get_object_or_404_found _ _ _ _ Hp). rewrite Hu.
    cbn [user_eq is_authenticated negb]. rewrite Hauthor, Nat.eqb_refl.
    cbn [negb].
    unfold PostUpdateView.post, BaseUpdateView_post, PostUpdateView.get_object,
      SingleObjectMixin_get_object, PostsEditMixin.queryset.
    destruct Hm as [-> | ->]; unfold bind at 1.
    all: rewrite (get_object_or_404_found _ _ _ _ Hp).
    all: unfold ProcessFormView_post, ModelFormMixin_form_valid, save_post.
    all: rewrite Hpk; reflexivity. }
  subst after. rewrite Hrun. simpl. repeat split.
  - rewrite (replaced_row_found Post.pk post_id p' eq_refl), Hp. reflexivity.
  - apply (keys_kept Post.pk post_id p' eq_refl).
  - apply (other_rows_kept Post.pk post_id p' eq_refl).
Qed.

(** X4 on the small blog: [alice] rewrites her post 1. *)
Lemma author_updates_post_witness :
  fst (PostUpdateView.as_view (Blog.request POST (Authenticated Blog.alice))
         (Valid Blog.a_post_form) 1 Blog.store)
  = HttpResponseRedirect (Reversed "blog:post_detail" [("post_id", IntArg 1)])
  /\ filter (fun q => Post.pk q =? 1)
            (posts (snd (PostUpdateView.as_view
                           (Blog.request POST (Authenticated Blog.alice))
                           (Valid Blog.a_post_form) 1 Blog.store)))
     = [{| Post.pk := 1; Post.author := 1; Post.category := 1;
           Post.location := None; Post.is_published := true;
           Post.pub_date := 300; Post.text := "new" |}].
Proof.
  pose proof (author_updates_post (Blog.request POST (Authenticated Blog.alice))
                Blog.alice Blog.a_post_form 1 Blog.store Blog.ordinary
                eq_refl (or_introl eq_refl) eq_refl eq_refl) as H.
  cbv zeta in H. destruct H as (Hr & Hrow & _).
  split; [exact Hr | exact Hrow].
Defined.

(** X5: when the author of a comment asks to delete it (POST or DELETE), the
    comment table loses the rows of that identifier and no other, the posts
    stay, and the answer is the redirect to the page of the post named in
    the URL; the comment is looked up by its own identifier alone, so this
    holds whatever post identifier the URL carries. *)
Theorem author_deletes_comment (request : Request) (u : User.t)
  (post_id comment_pk : nat) (s : Store) (c : Comment.t) :
  user request = Authenticated u ->
  method request = POST \/ method request = DELETE ->
  filter (fun q => Comment.pk q =? comment_pk) (comments s) = [c] ->
  User.pk u = Comment.author c ->
  CommentDeleteView.as_view request post_id comment_pk s
  = (HttpResponseRedirect
       (Reversed "blog:post_detail" [("post_id", IntArg post_id)]),
     {| users := users s;
        categories := categories s;
        posts := posts s;
        comments := filter (fun q => negb (Comment.pk q =? comment_pk))
                           (comments s) |}).
Proof.
  intros Hu Hm Hc Hauthor.
  assert (Hpk : Comment.pk c = comment_pk).
  { apply filter_singleton in Hc. destruct Hc as [_ Hc].
    apply Nat.eqb_eq in Hc. exact Hc. }
  unfold_edit_view. rewrite Hu. cbn [is_authenticated negb].
  destruct Hm as [-> | ->]; unfold bind at 1.
  all: rewrite (get_object_or_404_found _ _ _ _ Hc); cbn [user_eq].
  all: rewrite Hauthor, Nat.eqb_refl; cbn [negb].
  all: unfold DeletionMixin_delete, delete_comment, bind.
  all: rewrite (get_object_or_404_found _ _ _ _ Hc), Hpk; reflexivity.
Qed.

(** X5 on the small blog: [bob] deletes his comment, which is on post 1,
    through the route of post 3. *)
Lemma author_deletes_comment_witness :
  Comment.post Blog.a_comment = 1
  /\ CommentDeleteView.as_view (Blog.request POST (Authenticated Blog.bob))
       3 1 Blog.store
     = (HttpResponseRedirect (Reversed "blog:post_detail" [("post_id", IntArg 3)]),
        {| users := users Blog.store;
           categories := categories Blog.store;
           posts := posts Blog.store;
           comments := [] |}).
Proof.
  split; [reflexivity|].
  apply (author_deletes_comment (Blog.request POST (Authenticated Blog.bob))
           Blog.bob 3 1 Blog.store Blog.a_comment
           eq_refl (or_introl eq_refl) eq_refl eq_refl).
Defined.

(** X6: when the author of a comment submits a valid form to the update
    route (POST or PUT), the answer is the redirect to the page of the post
    named in the URL; the row of that identifier now holds the form's text
    with its old key, post, author and creation time; the other comments
    and the posts are as before. *)
Theorem author_updates_comment (request : Request) (u : User.t)
  (f : CreateCommentForm) (post_id comment_pk : nat) (s : Store) (c : Comment.t) :
  user request = Authenticated u ->
  method request = POST \/ method request = PUT ->
  filter (fun q => Comment.pk q =? comment_pk) (comments s) = [c] ->
  User.pk u = Comment.author c ->
  let after :=
    snd (CommentUpdateView.as_view request (Valid f) post_id comment_pk s) in
  fst (CommentUpdateView.as_view request (Valid f) post_id comment_pk s)
  = HttpResponseRedirect (Reversed "blog:post_detail" [("post_id", IntArg post_id)])
  /\ filter (fun q => Comment.pk q =? comment_pk) (comments after)
     = [{| Comment.pk := comment_pk;
           Comment.post := Comment.post c;
           Comment.author := Comment.author c;
           Comment.text := form_comment_text f;
           Comment.created_at := Comment.created_at c |}]
  /\ filter (fun q => negb (Comment.pk q =? comment_pk)) (comments after)
     = filter (fun q => negb (Comment.pk q =? comment_pk)) (comments s)
  /\ posts after = posts s.
Proof.
  intros Hu Hm Hc Hauthor after.
  assert (Hpk : Comment.pk c = comment_pk).
  { apply filter_singleton in Hc. destruct Hc as [_ Hc].
    apply Nat.eqb_eq in Hc. exact Hc. }
  set (c' := {| Comment.pk := comment_pk; Comment.post := Comment.post c;
                Comment.author := Comment.author c;
                Comment.text := form_comment_text f;
                Comment.created_at := Comment.created_at c |}).
  assert (Hrun : CommentUpdateView.as_view request (Valid f) post_id comment_pk s =
                 (HttpResponseRedirect
                    (Reversed "blog:post_detail" [("post_id", IntArg post_id)]),
                  {| users := users s; categories := categories s;
                     posts := posts s;
                     comments := map (fun q => if Comment.pk q =? comment_pk
                                               then c' else q) (comments s) |})).
  { unfold_edit_view. unfold bind at 1.
    rewrite (get_object_or_404_found _ _ _ _ Hc). rewrite Hu.
    cbn [user_eq is_authenticated negb]. rewrite Hauthor, Nat.eqb_refl.
    cbn [negb].
    unfold CommentUpdateView.post, BaseUpdateView_post,
      CommentUpdateView.get_object, SingleObjectMixin_get_object,
      CommentEditMixin.queryset.
    destruct Hm as [-> | ->]; unfold bind at 1.
    all: rewrite (get_object_or_404_found _ _ _ _ Hc).
    all: unfold ProcessFormView_post, ModelFormMixin_form_valid, save_comment.
    all: rewrite Hpk; reflexivity. }
  subst after. rewrite Hrun. simpl. repeat split.
  - rewrite (replaced_row_found Comment.pk comment_pk c' eq_refl), Hc. reflexivity.
  - apply (other_rows_kept Comment.pk comment_pk c' eq_refl).
Qed.

(** X6 on the small blog: [bob] rewrites his comment. *)
Lemma author_updates_comment_witness :
  filter (fun q => Comment.pk q =? 1)
         (comments (snd (CommentUpdateView.as_view
                           (Blog.request POST (Authenticated Blog.bob))
                           (Valid Blog.a_comment_form) 1 1 Blog.store)))
  = [{| Comment.pk := 1; Comment.post := 1; Comment.author := 2;
        Comment.text := "second"; Comment.created_at := 150 |}].
Proof.
  pose proof (author_updates_comment (Blog.request POST (Authenticated Blog.bob))
                Blog.bob Blog.a_comment_form 1 1 Blog.store Blog.a_comment
                eq_refl (or_introl eq_refl) eq_refl eq_refl) as H.
  cbv zeta in H. destruct H as (_ & Hrow & _). exact Hrow.
Defined.


(* ===================================================================== *)
(** * What the views leave alone *)
(* ===================================================================== *)

Section Keeps.
Variable R : Store -> Store -> Prop.
Hypothesis R_refl : forall s, R s s.
Hypothesis R_trans : forall a b c, R a b -> R b c -> R a c.

Lemma keeps_ret {A} (a : A) : keeps R (ret a).
Proof. intros s. apply R_refl. Qed.

Lemma keeps_raise {A} (e : Exception) : keeps R (@raise A e).
Proof. intros s. apply R_refl. Qed.

Lemma keeps_query {A} (table : Store -> A) : keeps R (query table).
Proof. intros s. apply R_refl. Qed.

Lemma keeps_modify (f : Store -> Store) :
  (forall s, R s (f s)) -> keeps R (modify f).
Proof. intros H s. apply H. Qed.

Lemma keeps_bind {A B} (m : M A) (k : A -> M B) :
  keeps R m -> (forall a, keeps R (k a)) -> keeps R (bind m k).
Proof.
  intros Hm Hk s. unfold bind. specialize (Hm s).
  destruct (m s) as [[a | e] s']; simpl in *; [|exact Hm].
  eapply R_trans; [exact Hm | apply Hk].
Qed.

Lemma keeps_lookup {A} (table : Store -> list A) (cond : A -> bool) :
  keeps R (get_object_or_404 table cond).
Proof. intros s. rewrite get_object_or_404_store. apply R_refl. Qed.

Lemma keeps_paginate {A} (l : list A) (n : nat) (pg : PageArg) :
  keeps R (paginate_queryset l n pg).
Proof. intros s. rewrite paginate_queryset_store. apply R_refl. Qed.

Lemma keeps_reverse (name : string) (kwargs : list (string * Arg)) :
  keeps R (reverse name kwargs).
Proof.
  intros s. unfold reverse.
  destruct (route_params name urlpatterns) as [ps|]; [|apply R_refl].
  destruct (same_names (map fst kwargs) ps); apply R_refl.
Qed.

Lemma keeps_redirect (to : string) (kwargs : list (string * Arg)) :
  keeps R (redirect to kwargs).
Proof. intros s. rewrite redirect_store. apply R_refl. Qed.

Lemma keeps_respond (view : M Response) (s : Store) :
  keeps R view -> R s (snd (respond view s)).
Proof.
  intros H. specialize (H s). unfold respond.
  destruct (view s) as [[r | []] s']; exact H.
Qed.
End Keeps.

Ltac unfold_views :=
  unfold_list_view; unfold_edit_view;
  unfold PostDetailView.as_view, PostDetailView.dispatch, PostDetailView.get,
    PostDetailView.get_context_data, PostDetailView.get_object,
    PostUpdateView.get, PostUpdateView.post, PostUpdateView.get_object,
    PostUpdateView.get_success_url,
    CommentUpdateView.get, CommentUpdateView.post, CommentUpdateView.get_object,
    CommentUpdateView.get_success_url,
    PostCreateView.get, PostCreateView.post, PostCreateView.form_valid,
    PostCreateView.get_success_url,
    CommentCreateView.get, CommentCreateView.post, CommentCreateView.form_valid,
    CommentCreateView.get_success_url,
    PostDeleteView.get_success_url, CommentDeleteView.get_success_url,
    BaseUpdateView_get, BaseUpdateView_post, ProcessFormView_post,
    ModelFormMixin_form_valid, DeletionMixin_delete, render_form,
    save_new_post, save_post, save_new_comment, save_comment,
    delete_post, delete_comment,
    LoginRequiredMixin_dispatch, View_dispatch, ReadView_handlers,
    FormView_handlers, DeleteView_handlers, SingleObjectMixin_get_object.

Ltac keeps_step refl trans :=
  match goal with
  | |- keeps _ (bind _ _) => apply (keeps_bind _ trans); [|intro]
  | |- keeps _ (ret _) => apply (keeps_ret _ refl)
  | |- keeps _ (raise _) => apply (keeps_raise _ refl)
  | |- keeps _ (query _) => apply (keeps_query _ refl)
  | |- keeps _ (get_object_or_404 _ _) => apply (keeps_lookup _ refl)
  | |- keeps _ (paginate_queryset _ _ _) => apply (keeps_paginate _ refl)
  | |- keeps _ (reverse _ _) => apply (keeps_reverse _ refl)
  | |- keeps _ (redirect _ _) => apply (keeps_redirect _ refl)
  | |- keeps _ (modify _) => apply keeps_modify; intro; simpl
  | |- keeps _ (if ?b then _ else _) => destruct b
  | |- keeps _ (match ?x with _ => _ end) => destruct x
  end.

(** X7: the four listing and detail views only read: whatever the request,
    the store after the index, a category listing, a profile or a detail
    page is the store before. *)
Theorem read_views_change_nothing (now : Z) (request : Request) (s : Store) :
  snd (BlogIndexListView.as_view now request s) = s
  /\ (forall category_slug,
         snd (BlogCategoryListView.as_view now request category_slug s) = s)
  /\ (forall username,
         snd (AuthorProfileListView.as_view now request username s) = s)
  /\ (forall post_id, snd (PostDetailView.as_view now request post_id s) = s).
Proof.
  repeat split; intros; symmetry;
    apply (keeps_respond eq);
    unfold_views; destruct (method request); cbv beta iota;
    repeat keeps_step (@eq_refl Store) (@eq_trans Store).
Qed.

(** X8: a form that does not validate never changes the store: whatever the
    request, the post-create, post-update, comment-create and comment-update
    routes leave the store as it is when the bound form is invalid. *)
Theorem invalid_form_changes_nothing (now : Z) (request : Request)
  (post_id comment_pk : nat) (s : Store) :
  snd (PostCreateView.as_view request Invalid s) = s
  /\ snd (PostUpdateView.as_view request Invalid post_id s) = s
  /\ snd (CommentCreateView.as_view now request Invalid post_id s) = s
  /\ snd (CommentUpdateView.as_view request Invalid post_id comment_pk s) = s.
Proof.
  repeat split; symmetry; apply (keeps_respond eq);
    unfold_views; destruct (method request); cbv beta iota;
    repeat keeps_step (@eq_refl Store) (@eq_trans Store).
Qed.

Lemma same_users_and_categories_refl (s : Store) : same_users_and_categories s s.
Proof. split; reflexivity. Qed.

Lemma same_users_and_categories_trans (a b c : Store) :
  same_users_and_categories a b -> same_users_and_categories b c ->
  same_users_and_categories a c.
Proof. unfold same_users_and_categories. intros [] []. split; congruence. Qed.

Lemma same_but_comments_refl (s : Store) : same_but_comments s s.
Proof. repeat split; reflexivity. Qed.

Lemma same_but_comments_trans (a b c : Store) :
  same_but_comments a b -> same_but_comments b c -> same_but_comments a c.
Proof. unfold same_but_comments. intros (? & ? & ?) (? & ? & ?). repeat split; congruence. Qed.

Lemma same_but_posts_refl (s : Store) : same_but_posts s s.
Proof. repeat split; reflexivity. Qed.

Lemma same_but_posts_trans (a b c : Store) :
  same_but_posts a b -> same_but_posts b c -> same_but_posts a c.
Proof. unfold same_but_posts. intros (? & ? & ?) (? & ? & ?). repeat split; congruence. Qed.

(** X9: no view writes to the user or the category table: whatever the
    request and the form, the six mutating routes leave both as they
    are. *)
Theorem users_and_categories_never_change (now : Z) (request : Request)
  (post_form : BoundForm CreatePostForm)
  (comment_form : BoundForm CreateCommentForm) (post_id comment_pk : nat)
  (s : Store) :
  same_users_and_categories s (snd (PostCreateView.as_view request post_form s))
  /\ same_users_and_categories s
       (snd (PostUpdateView.as_view request post_form post_id s))
  /\ same_users_and_categories s (snd (PostDeleteView.as_view request post_id s))
  /\ same_users_and_categories s
       (snd (CommentCreateView.as_view now request comment_form post_id s))
  /\ same_users_and_categories s
       (snd (CommentUpdateView.as_view request comment_form post_id comment_pk s))
  /\ same_users_and_categories s
       (snd (CommentDeleteView.as_view request post_id comment_pk s)).
Proof.
  repeat apply conj; apply (keeps_respond same_users_and_categories);
    unfold_views; destruct (method request); cbv beta iota;
    repeat keeps_step same_users_and_categories_refl
                      same_users_and_categories_trans;
    try (split; reflexivity).
Qed.

(** X10: the comment routes never write to the post table, and creating or
    updating a post never writes to the comment table. *)
Theorem posts_and_comments_are_written_apart (now : Z) (request : Request)
  (post_form : BoundForm CreatePostForm)
  (comment_form : BoundForm CreateCommentForm) (post_id comment_pk : nat)
  (s : Store) :
  posts (snd (CommentCreateView.as_view now request comment_form post_id s))
  = posts s
  /\ posts (snd (CommentUpdateView.as_view request comment_form post_id
                   comment_pk s)) = posts s
  /\ posts (snd (CommentDeleteView.as_view request post_id comment_pk s))
     = posts s
  /\ comments (snd (PostCreateView.as_view request post_form s)) = comments s
  /\ comments (snd (PostUpdateView.as_view request post_form post_id s))
     = comments s.
Proof.
  assert (Hc : forall view, keeps same_but_comments view ->
                            posts (snd (respond view s)) = posts s).
  { intros view H. apply (keeps_respond same_but_comments view s) in H.
    destruct H as (_ & _ & H). exact H. }
  assert (Hp : forall view, keeps same_but_posts view ->
                            comments (snd (respond view s)) = comments s).
  { intros view H. apply (keeps_respond same_but_posts view s) in H.
    destruct H as (_ & _ & H). exact H. }
  repeat apply conj.
  1-3: apply Hc; unfold_views; destruct (method request); cbv beta iota;
    repeat keeps_step same_but_comments_refl same_but_comments_trans;
    try (repeat split; reflexivity).
  all: apply Hp; unfold_views; destruct (method request); cbv beta iota;
    repeat keeps_step same_but_posts_refl same_but_posts_trans;
    try (repeat split; reflexivity).
Qed.

(* ===================================================================== *)
(** * What the listings hold *)
(* ===================================================================== *)

Lemma BlogIndexListView_page (now : Z) (request : Request) (s : Store)
  (pg : list PostItem) :
  method request = GET ->
  paginate_queryset (index_queryset now s) PAGINATED_BY (page request) s
  = (Return pg, s) ->
  BlogIndexListView.as_view now request s
  = (TemplateResponse "blog/index.html" (ListContext pg), s).
Proof.
  intros Hm Hpage. unfold_list_view. rewrite Hm. unfold_M.
  fold (index_queryset now s). unfold BlogIndexListView.paginate_by.
  rewrite Hpage. reflexivity.
Qed.

Lemma visible_in_index_queryset (now : Z) (s : Store) (p : Post.t) :
  In p (posts s) -> publicly_visible s now p = true ->
  In {| item := p; comment_count := Some (count_comments s p) |}
     (index_queryset now s).
Proof.
  intros Hin Hvis. unfold publicly_visible in Hvis.
  apply andb_prop in Hvis. destruct Hvis as [Hpub Hcat].
  unfold index_queryset, annotate_comment_count.
  apply (in_map (fun q => {| item := q;
                             comment_count := Some (count_comments s q) |})).
  apply filter_In. split; [|exact Hcat].
  apply filter_In. split; assumption.
Qed.

(** X11: the index lists the posts that are published, dated not after
    [now] and in a published category, and no others: every item of a page
    is such a post of the store and bears the number of its comments, and
    every such post of the store is on some page. *)
Theorem index_lists_exactly_the_visible (now : Z) (s : Store) :
  (forall request x,
      In x (response_items (fst (BlogIndexListView.as_view now request s))) ->
      In (item x) (posts s)
      /\ publicly_visible s now (item x) = true
      /\ comment_count x = Some (count_comments s (item x)))
  /\ (forall p u path,
         In p (posts s) ->
         publicly_visible s now p = true ->
         exists n : Z,
           In {| item := p; comment_count := Some (count_comments s p) |}
              (response_items
                 (fst (BlogIndexListView.as_view now
                         {| method := GET; user := u; path := path;
                            page := PageInt n |} s)))).
Proof.
  split.
  - intros request x Hx. split.
    + apply BlogIndexListView_lists, annotate_comment_count_item in Hx.
      apply filter_In in Hx. destruct Hx as [Hx _].
      apply filter_In in Hx. tauto.
    + apply (BlogIndexListView_visible now request s x Hx).
  - intros p u path Hin Hvis.
    destruct (Paginator_page_complete (index_queryset now s) PAGINATED_BY _ s
                ltac:(unfold PAGINATED_BY; lia)
                (visible_in_index_queryset now s p Hin Hvis))
      as (n & pg & Hpage & Hpg).
    exists n.
    rewrite (BlogIndexListView_page now
               {| method := GET; user := u; path := path; page := PageInt n |}
               s pg eq_refl Hpage).
    exact Hpg.
Qed.

(** X11 on the small blog at clock reading 200: the ordinary post, with its
    one comment, is on a page of the index. *)
Lemma index_lists_exactly_the_visible_witness :
  exists n : Z,
    In {| item := Blog.ordinary; comment_count := Some 1 |}
       (response_items
          (fst (BlogIndexListView.as_view Blog.now
                  {| method := GET; user := AnonymousUser; path := "/";
                     page := PageInt n |} Blog.store))).
Proof.
  refine (proj2 (index_lists_exactly_the_visible Blog.now Blog.store)
            Blog.ordinary AnonymousUser "/" _ _).
  - simpl. tauto.
  - reflexivity.
Defined.

Lemma paginate_queryset_raises {A : Type} (l : list A) (n : nat) (pg : PageArg)
  (s s' : Store) (e : Exception) :
  paginate_queryset l n pg s = (Raise e, s') -> e = Http404 /\ s' = s.
Proof.
  assert (H : forall z, Paginator_page l n z s = (Raise e, s') ->
                        e = Http404 /\ s' = s).
  { intros z. unfold Paginator_page.
    destruct (z <? 1)%Z; [intros E; inversion E; auto|].
    destruct (_ && _); intros E; inversion E; auto. }
  destruct pg; simpl; try apply H. intros E; inversion E; auto.
Qed.

(** X12: a category listing answers not-found when no published category
    has the slug of the URL, whatever posts the store holds and whatever
    page is asked for. *)
Theorem category_not_published_not_found (now : Z) (request : Request)
  (category_slug : string) (s : Store) :
  method request = GET ->
  filter (fun c => String.eqb (Category.slug c) category_slug
                   && Category.is_published c) (categories s) = [] ->
  BlogCategoryListView.as_view now request category_slug s
  = (HttpResponseNotFound, s).
Proof.
  intros Hm Hnone. unfold_list_view. rewrite Hm. unfold_M.
  destruct (paginate_queryset _ BlogCategoryListView.paginate_by (page request) s)
    as [[pg | e] s'] eqn:E.
  - pose proof (paginate_queryset_store
                  (category_queryset now category_slug s)
                  BlogCategoryListView.paginate_by (page request) s) as Hs.
    unfold category_queryset in Hs. rewrite E in Hs. simpl in Hs. subst s'.
    rewrite (get_object_or_404_missing _ _ _ Hnone). reflexivity.
  - apply paginate_queryset_raises in E. destruct E as [-> ->]. reflexivity.
Qed.

(** X12 on the small blog: the category [drafts] is not published, though a
    published post is in it. *)
Lemma category_not_published_not_found_witness :
  category__slug (categories Blog.store) "drafts" Blog.in_drafts = true
  /\ BlogCategoryListView.as_view Blog.now (Blog.request GET AnonymousUser)
       "drafts" Blog.store
     = (HttpResponseNotFound, Blog.store).
Proof.
  split; [reflexivity|].
  apply (category_not_published_not_found Blog.now
           (Blog.request GET AnonymousUser) "drafts" Blog.store);
    reflexivity.
Defined.

(** X13: a profile page answers not-found when no user has the username of
    the URL, whoever asks and whatever page is asked for. *)
Theorem profile_of_unknown_user_not_found (now : Z) (request : Request)
  (username : string) (s : Store) :
  method request = GET ->
  username <> "" ->
  filter (fun u => String.eqb (User.username u) username) (users s) = [] ->
  AuthorProfileListView.as_view now request username s
  = (HttpResponseNotFound, s).
Proof.
  intros Hm Hname Hnone. unfold_list_view. rewrite Hm.
  destruct (user request) as [|u]; cbn [request_username].
  - destruct (String.eqb "" username) eqn:En.
    + apply String.eqb_eq in En. congruence.
    + unfold_M.
      destruct (paginate_queryset _ AuthorProfileListView.paginate_by
                  (page request) s) as [[pg | e] s'] eqn:E.
      * pose proof (paginate_queryset_store (profile_queryset now username s)
                      AuthorProfileListView.paginate_by (page request) s) as Hs.
        unfold profile_queryset in Hs. rewrite E in Hs. simpl in Hs. subst s'.
        rewrite (get_object_or_404_missing _ _ _ Hnone). reflexivity.
      * apply paginate_queryset_raises in E. destruct E as [-> ->]. reflexivity.
  - destruct (String.eqb (User.username u) username); unfold_M.
    all: destruct (paginate_queryset _ AuthorProfileListView.paginate_by
                     (page request) s) as [[pg | e] s'] eqn:E;
      [ match type of E with
        | paginate_queryset ?l ?n ?p ?s = _ =>
            pose proof (paginate_queryset_store l n p s) as Hs
        end;
        rewrite E in Hs; simpl in Hs; subst s';
        rewrite (get_object_or_404_missing _ _ _ Hnone); reflexivity
      | apply paginate_queryset_raises in E; destruct E as [-> ->]; reflexivity ].
Qed.

(** X13 on the small blog: nobody is called [carol]. *)
Lemma profile_of_unknown_user_not_found_witness :
  AuthorProfileListView.as_view Blog.now
    (Blog.request GET (Authenticated Blog.bob)) "carol" Blog.store
  = (HttpResponseNotFound, Blog.store).
Proof.
  apply (profile_of_unknown_user_not_found Blog.now
           (Blog.request GET (Authenticated Blog.bob)) "carol" Blog.store).
  - reflexivity.
  - discriminate.
  - reflexivity.
Defined.

(** X14: when no two categories share a slug, every item on a page of a
    category listing is a post of the store that is published, dated not
    after [now], in the category of that slug, and that category is
    published; the item bears the number of the post's comments.  The
    queryset does not look at the category's publish flag: the lookup of
    the category in [get_context_data] does. *)
Theorem category_listing_shows_only_visible (now : Z) (request : Request)
  (category_slug : string) (s : Store) (x : PostItem) :
  NoDup (map Category.slug (categories s)) ->
  In x (response_items
          (fst (BlogCategoryListView.as_view now request category_slug s))) ->
  In (item x) (posts s)
  /\ publicly_visible s now (item x) = true
  /\ category__slug (categories s) category_slug (item x) = true
  /\ comment_count x = Some (count_comments s (item x)).
Proof.
  intros Hnd Hx.
  pose proof (BlogCategoryListView_visible now request category_slug s x Hnd Hx)
    as Hvis.
  apply BlogCategoryListView_lists in Hx. destruct Hx as [Hx _].
  pose proof (public_items_counted now category_slug s x (or_intror (or_introl Hx)))
    as Hcount.
  apply annotate_comment_count_item in Hx.
  apply filter_In in Hx. destruct Hx as [Hx Hslug].
  apply filter_In in Hx. tauto.
Qed.

(** X14 on the small blog: the first item of the listing of [news]. *)
Lemma category_listing_shows_only_visible_witness :
  publicly_visible Blog.store Blog.now Blog.ordinary = true
  /\ comment_count {| item := Blog.ordinary; comment_count := Some 1 |}
     = Some (count_comments Blog.store Blog.ordinary).
Proof.
  pose proof (category_listing_shows_only_visible Blog.now
                (Blog.request GET AnonymousUser) "news" Blog.store
                {| item := Blog.ordinary; comment_count := Some 1 |}) as H.
  simpl in H.
  assert (Hnd : NoDup ["news"; "drafts"]).
  { constructor; [simpl; intros [E | []]; discriminate|].
    constructor; [simpl; tauto | constructor]. }
  destruct (H Hnd (or_introl eq_refl)) as (_ & Hvis & _ & Hcount).
  split; [exact Hvis | exact Hcount].
Defined.

Lemma AuthorProfileListView_page (now : Z) (request : Request)
  (username : string) (s : Store) (pg : list PostItem) (profile : User.t) :
  method request = GET ->
  String.eqb (request_username (user request)) username = false ->
  paginate_queryset (profile_queryset now username s) PAGINATED_BY
                    (page request) s = (Return pg, s) ->
  filter (fun v => String.eqb (User.username v) username) (users s) = [profile] ->
  AuthorProfileListView.as_view now request username s
  = (TemplateResponse "blog/profile.html" (ProfileContext pg profile), s).
Proof.
  intros Hm Hother Hpage Hprofile. unfold_list_view. rewrite Hm, Hother.
  unfold_M. fold (profile_queryset now username s).
  unfold AuthorProfileListView.paginate_by. rewrite Hpage.
  rewrite (get_object_or_404_found _ _ _ _ Hprofile). reflexivity.
Qed.

(** X15: the profile of a user, seen by anyone whose username is another,
    lists the posts written by a user of that name that are published and
    dated not after [now], whatever their category, and no others: every
    item of a page is such a post and bears the number of its comments, and
    when exactly one user has that name every such post is on some page. *)
Theorem profile_seen_by_others (now : Z) (username : string) (s : Store) :
  (forall request x,
      request_username (user request) <> username ->
      In x (response_items
              (fst (AuthorProfileListView.as_view now request username s))) ->
      In (item x) (posts s)
      /\ Post.is_published (item x) = true
      /\ (Post.pub_date (item x) <= now)%Z
      /\ author__username (users s) username (item x) = true
      /\ comment_count x = Some (count_comments s (item x)))
  /\ (forall p viewer path profile,
         request_username viewer <> username ->
         filter (fun v => String.eqb (User.username v) username) (users s)
         = [profile] ->
         In p (posts s) ->
         Post.is_published p = true ->
         (Post.pub_date p <= now)%Z ->
         Post.author p = User.pk profile ->
         exists n : Z,
           In {| item := p; comment_count := Some (count_comments s p) |}
              (response_items
                 (fst (AuthorProfileListView.as_view now
                         {| method := GET; user := viewer; path := path;
                            page := PageInt n |} username s)))).
Proof.
  split.
  - intros request x Hother Hx.
    apply AuthorProfileListView_lists in Hx.
    assert (Hq : In x (profile_queryset now username s)).
    { destruct (user request) as [|u]; [exact Hx|]. simpl in Hother.
      destruct (String.eqb (User.username u) username) eqn:E; [|exact Hx].
      apply String.eqb_eq in E. contradiction. }
    pose proof (public_items_counted now username s x (or_intror (or_intror Hq)))
      as Hcount.
    apply annotate_comment_count_item in Hq.
    apply filter_In in Hq. destruct Hq as [Hq Hauthor].
    apply filter_In in Hq. destruct Hq as [Hin Hpub].
    apply andb_prop in Hpub. destruct Hpub as [Hpub Hdate].
    apply Z.leb_le in Hdate. tauto.
  - intros p viewer path profile Hother Hprofile Hin Hpub Hdate Hauthor.
    assert (Hq : In {| item := p; comment_count := Some (count_comments s p) |}
                    (profile_queryset now username s)).
    { unfold profile_queryset, annotate_comment_count.
      apply (in_map (fun q => {| item := q;
                                 comment_count := Some (count_comments s q) |})).
      apply filter_In. split.
      - apply filter_In. split; [exact Hin|].
        rewrite Hpub. apply Z.leb_le in Hdate. rewrite Hdate. reflexivity.
      - unfold author__username. apply existsb_exists. exists profile.
        apply filter_singleton in Hprofile. destruct Hprofile as [Hpin Hname].
        split; [exact Hpin|]. rewrite Hauthor, Nat.eqb_refl. exact Hname. }
    destruct (Paginator_page_complete (profile_queryset now username s)
                PAGINATED_BY _ s ltac:(unfold PAGINATED_BY; lia) Hq)
      as (n & pg & Hpage & Hpg).
    exists n.
    rewrite (AuthorProfileListView_page now
               {| method := GET; user := viewer; path := path;
                  page := PageInt n |} username s pg profile eq_refl).
    + exact Hpg.
    + simpl. apply String.eqb_neq. exact Hother.
    + exact Hpage.
    + exact Hprofile.
Qed.

(** X15 on the small blog at clock reading 200: [bob] finds the post of the
    unpublished category on a page of [alice]'s profile. *)
Lemma profile_seen_by_others_witness :
  exists n : Z,
    In {| item := Blog.in_drafts; comment_count := Some 0 |}
       (response_items
          (fst (AuthorProfileListView.as_view Blog.now
                  {| method := GET; user := Authenticated Blog.bob;
                     path := "/profile/alice/"; page := PageInt n |}
                  "alice" Blog.store))).
Proof.
  refine (proj2 (profile_seen_by_others Blog.now "alice" Blog.store)
            Blog.in_drafts (Authenticated Blog.bob) "/profile/alice/" Blog.alice
            _ _ _ _ _ _).
  - discriminate.
  - reflexivity.
  - simpl. tauto.
  - reflexivity.
  - discriminate.
  - reflexivity.
Defined.

(** X16: a GET of the detail page of an existing post shows the post with
    the comments that refer to it, in the store's order, to its author and,
    when the post is published, in a published category and dated strictly
    before [now], to anyone; to anyone else it answers not-found, as it does
    for an identifier no post has; the store stays as it is. *)
Theorem detail_page_rule (now : Z) (request : Request) (post_id : nat)
  (s : Store) :
  method request = GET ->
  (forall p,
      filter (fun q => Post.pk q =? post_id) (posts s) = [p] ->
      (user_eq (user request) (Post.author p) = true
       \/ (Post.is_published p = true
           /\ category__is_published (categories s) p = true
           /\ (Post.pub_date p < now)%Z) ->
       PostDetailView.as_view now request post_id s
       = (TemplateResponse "blog/detail.html"
            (DetailContext p (filter (fun c => Comment.post c =? post_id)
                                     (comments s))), s))
      /\ (user_eq (user request) (Post.author p) = false ->
          Post.is_published p = false
          \/ category__is_published (categories s) p = false
          \/ (now <= Post.pub_date p)%Z ->
          PostDetailView.as_view now request post_id s
          = (HttpResponseNotFound, s)))
  /\ (filter (fun q => Post.pk q =? post_id) (posts s) = [] ->
      PostDetailView.as_view now request post_id s = (HttpResponseNotFound, s)).
Proof.
  intros Hm. split; [|apply PostDetailView_missing; exact Hm].
  intros p Hp.
  assert (Hpk : Post.pk p = post_id).
  { apply filter_singleton in Hp. destruct Hp as [_ Hp].
    apply Nat.eqb_eq in Hp. exact Hp. }
  rewrite (PostDetailView_shows now request post_id s p Hm Hp), Hpk.
  split.
  - intros [Hauthor | (Hpub & Hcat & Hdate)].
    + rewrite Hauthor. reflexivity.
    + apply Z.ltb_lt in Hdate. rewrite Hpub, Hcat, Hdate, orb_true_r.
      reflexivity.
  - intros Hother Hhidden. rewrite Hother. simpl.
    destruct Hhidden as [H | [H | H]].
    + rewrite H. reflexivity.
    + rewrite H, andb_false_r. reflexivity.
    + apply Z.ltb_ge in H. rewrite H, andb_false_r. reflexivity.
Qed.

(** X16 on the small blog at clock reading 200: [alice] sees her post dated
    500, [bob] does not. *)
Lemma detail_page_rule_witness :
  PostDetailView.as_view Blog.now (Blog.request GET (Authenticated Blog.alice))
    3 Blog.store
  = (TemplateResponse "blog/detail.html" (DetailContext Blog.future []),
     Blog.store)
  /\ PostDetailView.as_view Blog.now (Blog.request GET (Authenticated Blog.bob))
       3 Blog.store
     = (HttpResponseNotFound, Blog.store).
Proof.
  split.
  - apply (proj1 (proj1 (detail_page_rule Blog.now
                           (Blog.request GET (Authenticated Blog.alice)) 3
                           Blog.store eq_refl) Blog.future eq_refl)).
    left. reflexivity.
  - apply (proj2 (proj1 (detail_page_rule Blog.now
                           (Blog.request GET (Authenticated Blog.bob)) 3
                           Blog.store eq_refl) Blog.future eq_refl)).
    + reflexivity.
    + right. right. unfold Blog.now. simpl. lia.
Defined.

(* ===================================================================== *)
(** * Creating, then reading *)
(* ===================================================================== *)

Lemma next_pk_above (l : list nat) (x : nat) : In x l -> x < next_pk l.
Proof.
  unfold next_pk. induction l as [|a l IH]; simpl; [tauto|].
  intros [-> | H]; [lia|]. specialize (IH H). lia.
Qed.

Lemma new_key_not_in_use {A : Type} (key : A -> nat) (l : list A) :
  filter (fun q => key q =? next_pk (map key l)) l = [].
Proof.
  assert (H : forall x, In x l -> (key x =? next_pk (map key l)) = false).
  { intros x Hx. apply Nat.eqb_neq.
    pose proof (next_pk_above (map key l) (key x) (in_map key l x Hx)). lia. }
  revert H. generalize (next_pk (map key l)). intros k H.
  induction l as [|a l IH]; simpl; [reflexivity|].
  rewrite (H a (or_introl eq_refl)). apply IH.
  intros x Hx. apply H. right. exact Hx.
Qed.

Lemma PostCreateView_after (s : Store) (request : Request) (u : User.t)
  (f : CreatePostForm) :
  user request = Authenticated u ->
  method request = POST \/ method request = PUT ->
  snd (PostCreateView.as_view request (Valid f) s)
  = {| users := users s;
       categories := categories s;
       posts := posts s ++
                [{| Post.pk := next_pk (map Post.pk (posts s));
                    Post.author := User.pk u;
                    Post.category := form_category f;
                    Post.location := form_location f;
                    Post.is_published := form_is_published f;
                    Post.pub_date := form_pub_date f;
                    Post.text := form_text f |}];
       comments := comments s |}.
Proof.
  intros Hu Hm. unfold_views. rewrite Hu. simpl.
  destruct Hm as [-> | ->]; reflexivity.
Qed.

(** X17: the post that a valid creation request adds can be read back: it
    is the one row under its new key; its author gets it on the detail page
    whatever its publish flag, timestamp and category; and it is on some
    page of the author's own profile, the page the creation redirects to. *)
Theorem created_post_is_read_back (s : Store) (request : Request) (u : User.t)
  (f : CreatePostForm) :
  user request = Authenticated u ->
  method request = POST \/ method request = PUT ->
  let after := snd (PostCreateView.as_view request (Valid f) s) in
  let new := {| Post.pk := next_pk (map Post.pk (posts s));
                Post.author := User.pk u;
                Post.category := form_category f;
                Post.location := form_location f;
                Post.is_published := form_is_published f;
                Post.pub_date := form_pub_date f;
                Post.text := form_text f |} in
  filter (fun q => Post.pk q =? Post.pk new) (posts after) = [new]
  /\ (forall now request',
         method request' = GET ->
         user request' = Authenticated u ->
         PostDetailView.as_view now request' (Post.pk new) after
         = (TemplateResponse "blog/detail.html"
              (DetailContext new
                 (filter (fun c => Comment.post c =? Post.pk new) (comments s))),
            after))
  /\ (forall now path profile,
         filter (fun v => String.eqb (User.username v) (User.username u))
                (users s) = [profile] ->
         exists n : Z,
           In {| item := new; comment_count := None |}
              (response_items
                 (fst (AuthorProfileListView.as_view now
                         {| method := GET; user := Authenticated u;
                            path := path; page := PageInt n |}
                         (User.username u) after)))).
Proof.
  intros Hu Hm after new.
  assert (Hafter : after = {| users := users s; categories := categories s;
                              posts := posts s ++ [new];
                              comments := comments s |})
    by (apply PostCreateView_after; assumption).
  assert (Hrow : filter (fun q => Post.pk q =? Post.pk new) (posts after) = [new]).
  { rewrite Hafter. simpl posts. rewrite filter_app.
    unfold new at 1. simpl Post.pk.
    rewrite (new_key_not_in_use Post.pk (posts s)). simpl.
    rewrite Nat.eqb_refl. reflexivity. }
  split; [exact Hrow|]. split.
  - intros now request' Hget Hu'.
    rewrite (PostDetailView_shows now request' (Post.pk new) after new Hget Hrow).
    rewrite Hu'. simpl user_eq. rewrite Nat.eqb_refl. simpl.
    rewrite Hafter. reflexivity.
  - intros now path profile Hprofile.
    assert (Hown : In {| item := new; comment_count := None |}
                      (own_queryset u after)).
    { unfold own_queryset, plain.
      apply (in_map (fun q => {| item := q; comment_count := None |})).
      apply filter_In. split.
      - rewrite Hafter. simpl. apply in_or_app. right. left. reflexivity.
      - simpl. apply Nat.eqb_refl. }
    destruct (Paginator_page_complete (own_queryset u after) PAGINATED_BY _ after
                ltac:(unfold PAGINATED_BY; lia) Hown) as (n & pg & Hpage & Hpg).
    exists n. unfold_list_view. simpl.
    rewrite String.eqb_refl. unfold_M.
    unfold AuthorProfileListView.paginate_by. fold (own_queryset u after).
    rewrite Hpage.
    assert (Hprofile' : filter (fun v => String.eqb (User.username v)
                                                    (User.username u))
                               (users after) = [profile])
      by (rewrite Hafter; exact Hprofile).
    rewrite (get_object_or_404_found _ _ _ _ Hprofile'). simpl. exact Hpg.
Qed.

(** X17 on the small blog: [bob] creates a post dated 300 and, at clock
    reading 200, reads it on its detail page. *)
Lemma created_post_is_read_back_witness :
  exists (new : Post.t) (after : Store),
    Post.pub_date new = 300%Z
    /\ PostDetailView.as_view Blog.now (Blog.request GET (Authenticated Blog.bob))
         5 after
       = (TemplateResponse "blog/detail.html" (DetailContext new []), after).
Proof.
  pose proof (created_post_is_read_back Blog.store
                (Blog.request POST (Authenticated Blog.bob)) Blog.bob
                Blog.a_post_form eq_refl (or_introl eq_refl)) as H.
  cbv zeta in H. destruct H as (_ & Hdetail & _).
  eexists. eexists. split.
  2: exact (Hdetail Blog.now (Blog.request GET (Authenticated Blog.bob))
              eq_refl eq_refl).
  reflexivity.
Defined.

Lemma CommentCreateView_after (s : Store) (now : Z) (request : Request)
  (u : User.t) (post_id : nat) (f : CreateCommentForm) (p : Post.t) :
  user request = Authenticated u ->
  method request = POST \/ method request = PUT ->
  filter (fun q => Post.pk q =? post_id) (posts s) = [p] ->
  snd (CommentCreateView.as_view now request (Valid f) post_id s)
  = {| users := users s;
       categories := categories s;
       posts := posts s;
       comments := comments s ++
                   [{| Comment.pk := next_pk (map Comment.pk (comments s));
                       Comment.post := post_id;
                       Comment.author := User.pk u;
                       Comment.text := form_comment_text f;
                       Comment.created_at := now |}] |}.
Proof.
  intros Hu Hm Hp.
  assert (Hpk : Post.pk p = post_id).
  { apply filter_singleton in Hp. destruct Hp as [_ Hp].
    apply Nat.eqb_eq in Hp. exact Hp. }
  unfold CommentCreateView.as_view, respond, CommentCreateView.dispatch,
    LoginRequiredMixin_dispatch, View_dispatch, FormView_handlers,
    CommentCreateView.post, ProcessFormView_post, CommentCreateView.form_valid.
  rewrite Hu. simpl.
  destruct Hm as [-> | ->]; unfold bind at 1.
  all: rewrite (get_object_or_404_found _ _ _ _ Hp), Hpk; reflexivity.
Qed.

(** X18: the comment that a valid creation request adds is shown on the
    detail page of its post, after the comments that were there, to
    everyone the page is shown to. *)
Theorem created_comment_is_shown (s : Store) (now : Z) (request : Request)
  (u : User.t) (post_id : nat) (f : CreateCommentForm) (p : Post.t) :
  user request = Authenticated u ->
  method request = POST \/ method request = PUT ->
  filter (fun q => Post.pk q =? post_id) (posts s) = [p] ->
  let after := snd (CommentCreateView.as_view now request (Valid f) post_id s) in
  forall now' request',
    method request' = GET ->
    user_eq (user request') (Post.author p) = true
    \/ (Post.is_published p = true
        /\ category__is_published (categories s) p = true
        /\ (Post.pub_date p < now')%Z) ->
    PostDetailView.as_view now' request' post_id after
    = (TemplateResponse "blog/detail.html"
         (DetailContext p
            (filter (fun c => Comment.post c =? post_id) (comments s)
             ++ [{| Comment.pk := next_pk (map Comment.pk (comments s));
                    Comment.post := post_id;
                    Comment.author := User.pk u;
                    Comment.text := form_comment_text f;
                    Comment.created_at := now |}])),
       after).
Proof.
  intros Hu Hm Hp after now' request' Hget Hshown.
  assert (Hpk : Post.pk p = post_id).
  { apply filter_singleton in Hp. destruct Hp as [_ H].
    apply Nat.eqb_eq in H. exact H. }
  assert (Hafter : after = _)
    by (apply (CommentCreateView_after s now request u post_id f p); assumption).
  assert (Hp' : filter (fun q => Post.pk q =? post_id) (posts after) = [p])
    by (rewrite Hafter; exact Hp).
  rewrite (PostDetailView_shows now' request' post_id after p Hget Hp').
  assert (Hcond : user_eq (user request') (Post.author p)
                  || (Post.is_published p
                      && category__is_published (categories after) p
                      && (Post.pub_date p <? now')%Z) = true).
  { destruct Hshown as [H | (Hpub & Hcat & Hdate)].
    - rewrite H. reflexivity.
    - apply Z.ltb_lt in Hdate. rewrite Hafter. simpl categories.
      rewrite Hpub, Hcat, Hdate. apply orb_true_r. }
  rewrite Hcond, Hpk. rewrite Hafter at 1. simpl comments.
  rewrite filter_app. simpl. rewrite Nat.eqb_refl. reflexivity.
Qed.

(** X18 on the small blog: [bob] comments on post 1, and a visitor without
    session reads both comments. *)
Lemma created_comment_is_shown_witness :
  exists (after : Store) (c : Comment.t),
    Comment.text c = "second"
    /\ PostDetailView.as_view 201 (Blog.request GET AnonymousUser) 1 after
       = (TemplateResponse "blog/detail.html"
            (DetailContext Blog.ordinary [Blog.a_comment; c]), after).
Proof.
  pose proof (created_comment_is_shown Blog.store Blog.now
                (Blog.request POST (Authenticated Blog.bob)) Blog.bob 1
                Blog.a_comment_form Blog.ordinary
                eq_refl (or_introl eq_refl) eq_refl) as H.
  cbv zeta in H.
  specialize (H 201%Z (Blog.request GET AnonymousUser) eq_refl).
  eexists. eexists. split.
  2: { apply H. right. repeat split. }
  reflexivity.
Defined.

(* ===================================================================== *)
(** * Pages *)
(* ===================================================================== *)

Lemma Paginator_num_pages_positive (count per_page : nat) :
  0 < per_page -> 1 <= Paginator_num_pages count per_page.
Proof.
  intros Hpos. unfold Paginator_num_pages.
  replace (Nat.max 1 count + per_page - 1)
    with ((Nat.max 1 count - 1) + 1 * per_page) by lia.
  rewrite Nat.div_add by lia. lia.
Qed.

Lemma Paginator_num_pages_cover (count per_page : nat) :
  0 < per_page -> count <= Paginator_num_pages count per_page * per_page.
Proof.
  intros Hpos. unfold Paginator_num_pages.
  pose proof (Nat.div_mod_eq (Nat.max 1 count + per_page - 1) per_page) as E.
  pose proof (Nat.mod_upper_bound (Nat.max 1 count + per_page - 1) per_page
                ltac:(lia)) as Hlt.
  nia.
Qed.

(** X19: the index answers not-found for a page number below 1, for one
    beyond the last page, and for a page parameter that is neither a number
    nor the word "last"; with no post to list, the first page is an empty
    page, not an error. *)
Theorem index_page_edges (now : Z) (request : Request) (s : Store) :
  method request = GET ->
  (forall n : Z,
      page request = PageInt n ->
      (n < 1)%Z
      \/ (Z.of_nat (Paginator_num_pages (List.length (index_queryset now s))
                                        PAGINATED_BY) < n)%Z ->
      BlogIndexListView.as_view now request s = (HttpResponseNotFound, s))
  /\ (page request = PageOther ->
      BlogIndexListView.as_view now request s = (HttpResponseNotFound, s))
  /\ (page request = NoPage ->
      index_queryset now s = [] ->
      BlogIndexListView.as_view now request s
      = (TemplateResponse "blog/index.html" (ListContext []), s)).
Proof.
  intros Hm. repeat split.
  - intros n Hpage Hrange. unfold_list_view. rewrite Hm, Hpage. unfold_M.
    fold (index_queryset now s). unfold BlogIndexListView.paginate_by.
    simpl paginate_queryset. unfold Paginator_page.
    destruct (n <? 1)%Z eqn:E1; [reflexivity|].
    apply Z.ltb_ge in E1. destruct Hrange as [H | H]; [lia|].
    pose proof (Paginator_num_pages_positive
                  (List.length (index_queryset now s)) PAGINATED_BY
                  ltac:(unfold PAGINATED_BY; lia)) as Hone.
    assert (E2 : (Z.of_nat (Paginator_num_pages
                              (List.length (index_queryset now s)) PAGINATED_BY)
                  <? n)%Z = true) by (apply Z.ltb_lt; exact H).
    assert (E3 : (n =? 1)%Z = false) by (apply Z.eqb_neq; lia).
    rewrite E2, E3. reflexivity.
  - intros Hpage. unfold_list_view. rewrite Hm, Hpage. reflexivity.
  - intros Hpage Hempty. apply BlogIndexListView_page; [exact Hm|].
    rewrite Hpage, Hempty. reflexivity.
Qed.

(** X19 on the small blog, whose index has one page: page 2 and page 0. *)
Lemma index_page_edges_witness :
  BlogIndexListView.as_view Blog.now
    {| method := GET; user := AnonymousUser; path := "/"; page := PageInt 2 |}
    Blog.store
  = (HttpResponseNotFound, Blog.store)
  /\ BlogIndexListView.as_view Blog.now
       {| method := GET; user := AnonymousUser; path := "/"; page := PageInt 0 |}
       Blog.store
     = (HttpResponseNotFound, Blog.store).
Proof.
  split.
  - apply (proj1 (index_page_edges Blog.now
                    {| method := GET; user := AnonymousUser; path := "/";
                       page := PageInt 2 |} Blog.store eq_refl) 2%Z eq_refl).
    right. vm_compute. reflexivity.
  - apply (proj1 (index_page_edges Blog.now
                    {| method := GET; user := AnonymousUser; path := "/";
                       page := PageInt 0 |} Blog.store eq_refl) 0%Z eq_refl).
    left. lia.
Defined.

Section Chunks.
Context {A : Type}.
Variables (l : list A) (per_page : nat).
Hypothesis per_page_positive : 0 < per_page.

Lemma firstn_plus (a b : nat) (xs : list A) :
  firstn (a + b) xs = (firstn a xs ++ firstn b (skipn a xs))%list.
Proof.
  revert xs. induction a as [|a IH]; intros xs; [reflexivity|].
  destruct xs as [|x xs]; simpl.
  - rewrite firstn_nil. reflexivity.
  - rewrite IH. reflexivity.
Qed.

(** A page within range is the chunk of [per_page] rows at its offset. *)
Lemma Paginator_page_chunk (n : nat) (s : Store) :
  1 <= n <= Paginator_num_pages (List.length l) per_page ->
  Paginator_page l per_page (Z.of_nat n) s
  = (Return (firstn per_page (skipn ((n - 1) * per_page) l)), s).
Proof.
  intros [Hlo Hhi]. unfold Paginator_page.
  assert (E1 : (Z.of_nat n <? 1)%Z = false) by (apply Z.ltb_ge; lia).
  assert (E2 : (Z.of_nat (Paginator_num_pages (List.length l) per_page)
                <? Z.of_nat n)%Z = false) by (apply Z.ltb_ge; lia).
  rewrite E1, E2. cbn [andb]. rewrite Nat2Z.id. unfold ret.
  assert (Hslice :
            firstn ((if List.length l <=? (n - 1) * per_page + per_page
                     then List.length l
                     else (n - 1) * per_page + per_page) - (n - 1) * per_page)
                   (skipn ((n - 1) * per_page) l)
            = firstn per_page (skipn ((n - 1) * per_page) l)).
  { destruct (List.length l <=? (n - 1) * per_page + per_page) eqn:E.
    - apply Nat.leb_le in E.
      rewrite (firstn_all2 (n := per_page)) by (rewrite length_skipn; lia).
      apply firstn_all2. rewrite length_skipn. lia.
    - f_equal. lia. }
  rewrite Hslice. reflexivity.
Qed.

Lemma chunks_make_prefix (k : nat) :
  flat_map (fun i => firstn per_page (skipn (i * per_page) l)) (seq 0 k)
  = firstn (k * per_page) l.
Proof.
  induction k as [|k IH]; [reflexivity|].
  rewrite seq_S, flat_map_app, IH. simpl flat_map. rewrite app_nil_r.
  replace (S k * per_page) with (k * per_page + per_page) by lia.
  symmetry. apply firstn_plus.
Qed.

(** The pages, put end to end, are the queryset. *)
Lemma pages_make_queryset (s : Store) :
  flat_map (fun n => match Paginator_page l per_page (Z.of_nat n) s with
                     | (Return pg, _) => pg
                     | (Raise _, _) => []
                     end)
           (seq 1 (Paginator_num_pages (List.length l) per_page))
  = l.
Proof.
  set (k := Paginator_num_pages (List.length l) per_page).
  rewrite <- seq_shift, flat_map_concat_map, map_map.
  rewrite (map_ext_in _ (fun i => firstn per_page (skipn (i * per_page) l))).
  - rewrite <- flat_map_concat_map, chunks_make_prefix.
    apply firstn_all2. apply Paginator_num_pages_cover. exact per_page_positive.
  - intros i Hi. apply in_seq in Hi.
    rewrite Paginator_page_chunk by (fold k; lia).
    replace (S i - 1) with i by lia. reflexivity.
Qed.
End Chunks.

(** X20: the pages of the index, from the first to the last, put end to end
    are the index queryset: no listed post is lost between two pages and
    none is on two. *)
Theorem index_pages_make_the_listing (now : Z) (u : RequestUser) (path : string)
  (s : Store) :
  flat_map (fun n =>
              response_items
                (fst (BlogIndexListView.as_view now
                        {| method := GET; user := u; path := path;
                           page := PageInt (Z.of_nat n) |} s)))
           (seq 1 (Paginator_num_pages (List.length (index_queryset now s))
                                       PAGINATED_BY))
  = index_queryset now s.
Proof.
  etransitivity;
    [| apply (pages_make_queryset (index_queryset now s) PAGINATED_BY
                ltac:(unfold PAGINATED_BY; lia) s)].
  rewrite !flat_map_concat_map. f_equal. apply map_ext. intros n.
  unfold_list_view. simpl. unfold_M. fold (index_queryset now s).
  unfold BlogIndexListView.paginate_by.
  pose proof (Paginator_page_store (index_queryset now s) PAGINATED_BY
                (Z.of_nat n) s) as Hs.
  destruct (Paginator_page (index_queryset now s) PAGINATED_BY (Z.of_nat n) s)
    as [[pg | []] s']; reflexivity.
Qed.

(* ===================================================================== *)
(** * Missing entities, own profile, login *)
(* ===================================================================== *)

(** X21: when no row has the identifier of the URL, the update routes
    answer not-found to every request, and the delete routes to every GET,
    HEAD, POST and DELETE of a signed-in user; the store stays as it is. *)
Theorem missing_entity_not_found (request : Request) (post_id comment_pk : nat)
  (s : Store) :
  (filter (fun q => Post.pk q =? post_id) (posts s) = [] ->
   (forall form,
       PostUpdateView.as_view request form post_id s = (HttpResponseNotFound, s))
   /\ (is_authenticated (user request) = true ->
       method request = GET \/ method request = HEAD
       \/ method request = POST \/ method request = DELETE ->
       PostDeleteView.as_view request post_id s = (HttpResponseNotFound, s)))
  /\ (filter (fun q => Comment.pk q =? comment_pk) (comments s) = [] ->
      (forall form,
          CommentUpdateView.as_view request form post_id comment_pk s
          = (HttpResponseNotFound, s))
      /\ (is_authenticated (user request) = true ->
          method request = GET \/ method request = HEAD
          \/ method request = POST \/ method request = DELETE ->
          CommentDeleteView.as_view request post_id comment_pk s
          = (HttpResponseNotFound, s))).
Proof.
  split; intros Hnone; split.
  - intros form. unfold_edit_view. unfold bind at 1.
    rewrite (get_object_or_404_missing _ _ _ Hnone). reflexivity.
  - intros Hauth Hm. unfold_edit_view. rewrite Hauth. cbn [negb].
    destruct Hm as [-> | [-> | [-> | ->]]]; unfold bind at 1;
      rewrite (get_object_or_404_missing _ _ _ Hnone); reflexivity.
  - intros form. unfold_edit_view. unfold bind at 1.
    rewrite (get_object_or_404_missing _ _ _ Hnone). reflexivity.
  - intros Hauth Hm. unfold_edit_view. rewrite Hauth. cbn [negb].
    destruct Hm as [-> | [-> | [-> | ->]]]; unfold bind at 1;
      rewrite (get_object_or_404_missing _ _ _ Hnone); reflexivity.
Qed.

(** X21 on the small blog: no post has the identifier 9. *)
Lemma missing_entity_not_found_witness :
  PostUpdateView.as_view (Blog.request POST (Authenticated Blog.alice))
    (Valid Blog.a_post_form) 9 Blog.store
  = (HttpResponseNotFound, Blog.store)
  /\ PostDeleteView.as_view (Blog.request POST (Authenticated Blog.alice))
       9 Blog.store
     = (HttpResponseNotFound, Blog.store).
Proof.
  destruct (proj1 (missing_entity_not_found
                     (Blog.request POST (Authenticated Blog.alice)) 9 9
                     Blog.store) eq_refl) as [Hupdate Hdelete].
  split.
  - apply Hupdate.
  - apply Hdelete; [reflexivity|]. right. right. left. reflexivity.
Defined.

(** X22: the profile of a user, seen by that user, lists the user's own
    posts and no others, published or not, whatever their timestamp and
    category, and none of the items bears a comment count: every item of a
    page is a post of the store written by the user, and when exactly one
    user has the name every post written by the user is on some page. *)
Theorem own_profile_lists_own_posts (now : Z) (u : User.t) (s : Store) :
  (forall request x,
      user request = Authenticated u ->
      In x (response_items
              (fst (AuthorProfileListView.as_view now request
                      (User.username u) s))) ->
      In (item x) (posts s)
      /\ Post.author (item x) = User.pk u
      /\ comment_count x = None)
  /\ (forall p path profile,
         In p (posts s) ->
         Post.author p = User.pk u ->
         filter (fun v => String.eqb (User.username v) (User.username u))
                (users s) = [profile] ->
         exists n : Z,
           In {| item := p; comment_count := None |}
              (response_items
                 (fst (AuthorProfileListView.as_view now
                         {| method := GET; user := Authenticated u;
                            path := path; page := PageInt n |}
                         (User.username u) s)))).
Proof.
  split.
  - intros request x Hu Hx. apply AuthorProfileListView_lists in Hx.
    rewrite Hu, String.eqb_refl in Hx.
    unfold own_queryset, plain in Hx. apply in_map_iff in Hx.
    destruct Hx as (p & <- & Hp). simpl.
    apply filter_In in Hp. destruct Hp as [Hin Hauthor].
    apply Nat.eqb_eq in Hauthor. tauto.
  - intros p path profile Hin Hauthor Hprofile.
    assert (Hown : In {| item := p; comment_count := None |} (own_queryset u s)).
    { unfold own_queryset, plain.
      apply (in_map (fun q => {| item := q; comment_count := None |})).
      apply filter_In. split; [exact Hin|].
      rewrite Hauthor. apply Nat.eqb_refl. }
    destruct (Paginator_page_complete (own_queryset u s) PAGINATED_BY _ s
                ltac:(unfold PAGINATED_BY; lia) Hown) as (n & pg & Hpage & Hpg).
    exists n. unfold_list_view. simpl.
    rewrite String.eqb_refl. unfold_M.
    unfold AuthorProfileListView.paginate_by. fold (own_queryset u s).
    rewrite Hpage.
    rewrite (get_object_or_404_found _ _ _ _ Hprofile). simpl. exact Hpg.
Qed.

(** X22 on the small blog: [alice] finds her post of the unpublished
    category on a page of her profile. *)
Lemma own_profile_lists_own_posts_witness :
  exists n : Z,
    In {| item := Blog.in_drafts; comment_count := None |}
       (response_items
          (fst (AuthorProfileListView.as_view Blog.now
                  {| method := GET; user := Authenticated Blog.alice;
                     path := "/profile/alice/"; page := PageInt n |}
                  "alice" Blog.store))).
Proof.
  refine (proj2 (own_profile_lists_own_posts Blog.now Blog.alice Blog.store)
            Blog.in_drafts "/profile/alice/" Blog.alice _ _ _).
  - simpl. tauto.
  - reflexivity.
  - reflexivity.
Defined.

(** X23: the delete and the create routes ask for the session before
    anything else: a request without one, whatever its method, its form and
    the identifiers of its URL, existing or not, is redirected to the login
    page with the path it came for, and the store stays as it is. *)
Theorem anonymous_sent_to_login (now : Z) (request : Request) (s : Store) :
  user request = AnonymousUser ->
  (forall post_id,
      PostDeleteView.as_view request post_id s
      = (HttpResponseRedirect (LoginURL (path request)), s))
  /\ (forall post_id comment_pk,
         CommentDeleteView.as_view request post_id comment_pk s
         = (HttpResponseRedirect (LoginURL (path request)), s))
  /\ (forall form,
         PostCreateView.as_view request form s
         = (HttpResponseRedirect (LoginURL (path request)), s))
  /\ (forall form post_id,
         CommentCreateView.as_view now request form post_id s
         = (HttpResponseRedirect (LoginURL (path request)), s)).
Proof.
  intros Hu. repeat split; intros; unfold_edit_view; rewrite Hu; reflexivity.
Qed.

(** X23 on the small blog: a valid post form without session. *)
Lemma anonymous_sent_to_login_witness :
  PostCreateView.as_view (Blog.request POST AnonymousUser)
    (Valid Blog.a_post_form) Blog.store
  = (HttpResponseRedirect (LoginURL "/here/"), Blog.store).
Proof.
  apply (proj1 (proj2 (proj2 (anonymous_sent_to_login Blog.now
                                (Blog.request POST AnonymousUser) Blog.store
                                eq_refl)))).
Defined.
